(** * App Store receipt validation client (package [appstore])

    A shallow embedding of [validator.go] and of the parts of [model.go] it
    uses, followed by the properties of [HandleError], [New], [Verify] and
    [parseResponse].

    The package is a thin layer over Go's [net/http] and [encoding/json].
    Those packages are not part of the repository, so their operations are
    the fields of a [Runtime]; the package's own code is written once, over
    any runtime, and a concrete runtime ([TestEnv]: servers that answer by
    address and a decoder for flat JSON objects) runs the code on examples.

    Conventions.
    - Go's [int] and [time.Duration] are [Z]; no arithmetic of the package
      can overflow (the only product is [10 * time.Second]).
    - [[]byte] and the contents of a [bytes.Buffer] are [string]s.
    - A value of type [error] is [option error]: [None] is [nil].
    - A Go function [f(...) (T, error)] is a value of [error + T]; a function
      that also touches the network or the caller's memory is a state
      transformer [M T] over [State].
    - [c.httpCli], [ctx] and the pointer receiver [c] are taken to be non-nil
      (a nil one makes Go panic before any of the behaviour described here).
    - The caller's result target lives in [Mem], apart from the [Client];
      module [Shared] covers the call that passes the client itself. *)

From Stdlib Require Import ZArith List String Ascii Bool Lia.
Import ListNotations.
Local Open Scope string_scope.
Local Open Scope Z_scope.

(** ** Go values shared by the packages below *)

(** The [error] interface has the single method [Error() string]; an error
    is modelled by the text it reports. *)
Record error : Type := errors_New { Error : string }.

(** [time.Duration] counts nanoseconds. *)
Definition time_Duration : Type := Z.
Definition time_Nanosecond : time_Duration := 1.
Definition time_Microsecond : time_Duration := 1000 * time_Nanosecond.
Definition time_Millisecond : time_Duration := 1000 * time_Microsecond.
Definition time_Second : time_Duration := 1000 * time_Millisecond.

(** An [io.ReadCloser] as its reader sees it: the bytes it yields, then
    either end of file or a read error. *)
Record io_ReadCloser : Type := {
  stream_data : string;
  stream_err : option error
}.

(** [ioutil.ReadAll] *)
Definition ioutil_ReadAll (r : io_ReadCloser) : error + string :=
  match stream_err r with
  | Some e => inl e
  | None => inr (stream_data r)
  end.

(** [http.Client]: the fields a struct literal of this package sets. *)
Record http_Client (RoundTripper : Type) : Type := {
  http_Transport : option RoundTripper;
  http_Timeout : time_Duration
}.
Arguments http_Transport {RoundTripper} _.
Arguments http_Timeout {RoundTripper} _.

(** [http.Request] *)
Record http_Request (Context : Type) : Type := {
  req_Method : string;
  req_URL : string;
  req_Header : list (string * string);
  req_Body : string;
  req_ctx : option Context
}.
Arguments req_Method {Context} _.
Arguments req_URL {Context} _.
Arguments req_Header {Context} _.
Arguments req_Body {Context} _.
Arguments req_ctx {Context} _.

(** [http.Response] *)
Record http_Response : Type := {
  resp_StatusCode : Z;
  resp_Body : io_ReadCloser
}.

(** ** model.go *)

Record IAPRequest : Type := {
  ReceiptData : string;
  Password : string;
  ExcludeOldTransactions : bool
}.

Record StatusResponse : Type := { Status : Z }.

(** ** The runtime: what [net/url], [net/http] and [encoding/json] do *)

Class Runtime : Type := {
  (** [context.Context] *)
  Context : Type;
  (** [http.RoundTripper] *)
  RoundTripper : Type;
  (** values of type [interface{}], such as the [result] argument *)
  Iface : Type;
  (** the caller's memory, which [result] may point into *)
  Mem : Type;
  (** the network and the servers behind it *)
  World : Type;
  (** the error of [url.Parse], or [None] when the address parses *)
  url_Parse_error : string -> option error;
  (** a Go string as a JSON string literal, quotes included *)
  json_string : string -> string;
  (** the round trip of [Do] on an [http.Client] *)
  http_RoundTrip :
    http_Client RoundTripper -> http_Request Context -> World ->
    (error + http_Response) * World;
  (** [json.Unmarshal(buf, &result)] for a local [result interface{}]: it
      stores through the pointer [result] holds, or else rebinds [result] *)
  json_Unmarshal : string -> Iface -> Mem -> option error * Iface * Mem;
  (** [json.Unmarshal(buf, &r)] for [r StatusResponse] *)
  json_Unmarshal_StatusResponse :
    string -> StatusResponse -> option error * StatusResponse;
  (** [json.NewDecoder(body).Decode(result)] *)
  json_Decoder_Decode : io_ReadCloser -> Iface -> Mem -> option error * Mem
}.

(** ** validator.go *)

Definition SandboxURL : string := "https://sandbox.itunes.apple.com/verifyReceipt".
Definition ProductionURL : string := "https://buy.itunes.apple.com/verifyReceipt".
Definition ContentType : string := "application/json; charset=utf-8".

Record Client `{Runtime} : Type := {
  Client_ProductionURL : string;
  Client_SandboxURL : string;
  Client_httpCli : http_Client RoundTripper;
  Client_IsProduct : bool
}.

(** [HandleError]: the [switch] tries its cases in order. *)
Definition HandleError (status : Z) : option error :=
  if status =? 0 then None
  else
    let message :=
      if status =? 21000 then
        "The App Store could not read the JSON object you provided."
      else if status =? 21002 then
        "The data in the receipt-data property was malformed or missing."
      else if status =? 21003 then
        "The receipt could not be authenticated."
      else if status =? 21004 then
        "The shared secret you provided does not match the shared secret on file for your account."
      else if status =? 21005 then
        "The receipt server is not currently available."
      else if status =? 21007 then
        "This receipt is from the test environment, but it was sent to the production environment for verification. Send it to the test environment instead."
      else if status =? 21008 then
        "This receipt is from the production environment, but it was sent to the test environment for verification. Send it to the production environment instead."
      else if status =? 21010 then
        "This receipt could not be authorized. Treat this the same as if a purchase was never made."
      else if (status >=? 21100) && (status <=? 21199) then
        "Internal data access error."
      else
        "An unknown error occurred"
    in
    Some (errors_New message).

Definition New `{Runtime} (isProduct : bool) : Client :=
  {| Client_ProductionURL := ProductionURL;
     Client_SandboxURL := SandboxURL;
     Client_IsProduct := isProduct;
     Client_httpCli :=
       {| http_Transport := None; http_Timeout := 10 * time_Second |} |}.

Definition NewWithClient `{Runtime}
    (client : http_Client RoundTripper) (isProduct : bool) : Client :=
  {| Client_ProductionURL := ProductionURL;
     Client_SandboxURL := SandboxURL;
     Client_httpCli := client;
     Client_IsProduct := isProduct |}.

(** *** State and the state-and-error monad *)

(** What a call can read or change: the [Client] behind the receiver, the
    caller's memory, the network, and two logs kept for the statements
    below: the requests handed to the transport, oldest first, and the
    response bodies closed. *)
Record State `{Runtime} : Type := {
  st_client : Client;
  st_mem : Mem;
  st_world : World;
  st_sent : list (http_Request Context);
  st_closed : list io_ReadCloser
}.

Definition M `{Runtime} (A : Type) : Type := State -> (error + A) * State.

Definition ret `{Runtime} {A : Type} (a : A) : M A := fun s => (inr a, s).

Definition bind `{Runtime} {A B : Type} (m : M A) (k : A -> M B) : M B :=
  fun s =>
    match m s with
    | (inl e, s') => (inl e, s')
    | (inr a, s') => k a s'
    end.

(** [v, err := f(...); if err != nil { return err }] for a pure [f] *)
Definition try `{Runtime} {A : Type} (r : error + A) : M A := fun s => (r, s).

Declare Scope go_scope.
Delimit Scope go_scope with go.
Notation "x <- m ;; k" := (bind m (fun x => k))
  (at level 61, m at next level, right associativity) : go_scope.
Local Open Scope go_scope.

(** [defer f()]: [f] runs when the enclosing function returns. *)
Definition defer `{Runtime} {A : Type} (f : State -> State) (body : M A) : M A :=
  fun s => let '(r, s') := body s in (r, f s').

(** The fields of [*c]. *)
Definition load_client `{Runtime} : M Client := fun s => (inr (st_client s), s).

(** *** The library calls of [Verify] and [parseResponse] *)

(** [json.Marshal] of an [IAPRequest], following its field tags:
    [password] is [omitempty]. *)
Definition json_Marshal_IAPRequest `{Runtime} (v : IAPRequest) : string :=
  "{" ++ json_string "receipt-data" ++ ":" ++ json_string (ReceiptData v)
  ++ (if String.eqb (Password v) EmptyString then EmptyString
      else "," ++ json_string "password" ++ ":" ++ json_string (Password v))
  ++ "," ++ json_string "exclude-old-transactions" ++ ":"
  ++ (if ExcludeOldTransactions v then "true" else "false")
  ++ "}".

Arguments json_Marshal_IAPRequest : simpl never.

(** [new(bytes.Buffer)] *)
Definition bytes_Buffer_new : string := EmptyString.

(** [json.NewEncoder(b).Encode(v)]: appends the encoding and a newline to
    [b]. Strings and booleans always encode and a [bytes.Buffer] accepts
    every write, so the error is [nil]. *)
Definition json_Encoder_Encode `{Runtime} (b : string) (v : IAPRequest)
  : string * option error :=
  (b ++ json_Marshal_IAPRequest v ++ String "010"%char EmptyString, None).

(** [http.NewRequest]: with a valid method, it fails when the address does
    not parse. The new request has the background context ([None]). *)
Definition http_NewRequest `{Runtime} (method url body : string)
  : error + http_Request Context :=
  match url_Parse_error url with
  | Some e => inl e
  | None =>
      inr {| req_Method := method; req_URL := url; req_Header := [];
             req_Body := body; req_ctx := None |}
  end.

(** [h.Set(key, value)]: replaces the values of [key]. *)
Definition Header_Set (h : list (string * string)) (key value : string)
  : list (string * string) :=
  (key, value) :: filter (fun kv => negb (String.eqb (fst kv) key)) h.

Definition req_Header_Set `{Runtime}
    (req : http_Request Context) (key value : string) : http_Request Context :=
  {| req_Method := req_Method req; req_URL := req_URL req;
     req_Header := Header_Set (req_Header req) key value;
     req_Body := req_Body req; req_ctx := req_ctx req |}.

(** [req.WithContext(ctx)] *)
Definition req_WithContext `{Runtime}
    (req : http_Request Context) (ctx : Context) : http_Request Context :=
  {| req_Method := req_Method req; req_URL := req_URL req;
     req_Header := req_Header req; req_Body := req_Body req;
     req_ctx := Some ctx |}.

(** [cli.Do(req)]: one round trip; the request is logged. *)
Definition http_Client_Do `{Runtime}
    (cli : http_Client RoundTripper) (req : http_Request Context)
  : M http_Response :=
  fun s =>
    let '(r, w) := http_RoundTrip cli req (st_world s) in
    (r, {| st_client := st_client s; st_mem := st_mem s; st_world := w;
           st_sent := st_sent s ++ [req]; st_closed := st_closed s |}).

(** [resp.Body.Close()] *)
Definition Body_Close `{Runtime} (resp : http_Response) (s : State) : State :=
  {| st_client := st_client s; st_mem := st_mem s; st_world := st_world s;
     st_sent := st_sent s; st_closed := st_closed s ++ [resp_Body resp] |}.

Definition store_mem `{Runtime} (s : State) (m : Mem) : State :=
  {| st_client := st_client s; st_mem := m; st_world := st_world s;
     st_sent := st_sent s; st_closed := st_closed s |}.

(** [err = json.Unmarshal(buf, &result); if err != nil { return err }]:
    yields the value of the local [result] afterwards. What the decoder
    wrote stays written when it fails. *)
Definition Unmarshal_result `{Runtime} (buf : string) (result : Iface) : M Iface :=
  fun s =>
    let '(err, result', m) := json_Unmarshal buf result (st_mem s) in
    match err with
    | Some e => (inl e, store_mem s m)
    | None => (inr result', store_mem s m)
    end.

(** [err = json.Unmarshal(buf, &r); if err != nil { return err }] *)
Definition Unmarshal_status `{Runtime} (buf : string) (r : StatusResponse)
  : M StatusResponse :=
  fun s =>
    let '(err, r') := json_Unmarshal_StatusResponse buf r in
    match err with
    | Some e => (inl e, s)
    | None => (inr r', s)
    end.

(** [return json.NewDecoder(body).Decode(result)] *)
Definition Decode_result `{Runtime} (body : io_ReadCloser) (result : Iface) : M unit :=
  fun s =>
    let '(err, m) := json_Decoder_Decode body result (st_mem s) in
    match err with
    | Some e => (inl e, store_mem s m)
    | None => (inr tt, store_mem s m)
    end.

(** *** [parseResponse] and [Verify] *)

Definition parseResponse `{Runtime}
    (resp : http_Response) (result : Iface) (ctx : Context) (reqBody : IAPRequest)
  : M unit :=
  buf <- try (ioutil_ReadAll (resp_Body resp)) ;;
  result <- Unmarshal_result buf result ;;
  r <- Unmarshal_status buf {| Status := 0 |} ;;
  c <- load_client ;;
  if Bool.eqb (Client_IsProduct c) false && (Status r =? 21007) then
    let '(b, _) := json_Encoder_Encode bytes_Buffer_new reqBody in
    req <- try (http_NewRequest "POST" (Client_SandboxURL c) b) ;;
    let req := req_Header_Set req "Content-Type" ContentType in
    let req := req_WithContext req ctx in
    resp <- http_Client_Do (Client_httpCli c) req ;;
    defer (Body_Close resp) (Decode_result (resp_Body resp) result)
  else
    ret tt.

Definition Verify `{Runtime}
    (ctx : Context) (reqBody : IAPRequest) (result : Iface) : M unit :=
  c <- load_client ;;
  let '(b, _) := json_Encoder_Encode bytes_Buffer_new reqBody in
  req <- try (http_NewRequest "POST" (Client_ProductionURL c) b) ;;
  let req := req_Header_Set req "Content-Type" ContentType in
  let req := req_WithContext req ctx in
  resp <- http_Client_Do (Client_httpCli c) req ;;
  defer (Body_Close resp) (parseResponse resp result ctx reqBody).

(** The [error] a call returned. *)
Definition returned {A : Type} (r : error + A) : option error :=
  match r with
  | inl e => Some e
  | inr _ => None
  end.

(** ** A runtime to run the code on: [TestEnv]

    A transport that answers from a table keyed by address, and the
    fragment of [encoding/json] needed for flat replies: an object whose
    values are integers, strings without escapes, booleans or [null], or
    the value [null] itself. Anything else is reported as a syntax error.
    The caller's target is a struct with the scalar fields of
    [IAPResponse]. *)
Module TestEnv.

Definition dquote : ascii := "034"%char.
Definition backslash : ascii := "092"%char.

(** Writes a JSON text with ['] for the double quote. *)
Fixpoint js (s : string) : string :=
  match s with
  | EmptyString => EmptyString
  | String c s' => String (if Ascii.eqb c "'"%char then dquote else c) (js s')
  end.

Inductive jvalue : Type :=
| JNull
| JBool (b : bool)
| JNum (n : Z)
| JStr (s : string).

Definition is_space (c : ascii) : bool :=
  Ascii.eqb c " "%char || Ascii.eqb c "009"%char
  || Ascii.eqb c "010"%char || Ascii.eqb c "013"%char.

Fixpoint skip_space (s : string) : string :=
  match s with
  | String c s' => if is_space c then skip_space s' else s
  | EmptyString => s
  end.

(** The rest of a string literal, after its opening quote. *)
Fixpoint scan_string (s : string) : option (string * string) :=
  match s with
  | EmptyString => None
  | String c s' =>
      if Ascii.eqb c dquote then Some (EmptyString, s')
      else if Ascii.eqb c backslash || (nat_of_ascii c <? 32)%nat then None
      else
        match scan_string s' with
        | Some (lit, rest) => Some (String c lit, rest)
        | None => None
        end
  end.

Definition digit_of (c : ascii) : option Z :=
  let n := Z.of_nat (nat_of_ascii c) in
  if (48 <=? n) && (n <=? 57) then Some (n - 48) else None.

Fixpoint scan_digits (s : string) (acc : Z) : Z * string :=
  match s with
  | String c s' =>
      match digit_of c with
      | Some d => scan_digits s' (10 * acc + d)
      | None => (acc, s)
      end
  | EmptyString => (acc, s)
  end.

(** An integer: [0], or digits that do not start with [0]. *)
Definition scan_nat (s : string) : option (Z * string) :=
  match s with
  | String c s' =>
      match digit_of c with
      | Some 0 => Some (0, s')
      | Some d => Some (scan_digits s' d)
      | None => None
      end
  | EmptyString => None
  end.

(** A number of the fragment is not followed by a fraction or an exponent. *)
Definition integer_ends (rest : string) : bool :=
  match rest with
  | String c _ =>
      negb (Ascii.eqb c "."%char || Ascii.eqb c "e"%char || Ascii.eqb c "E"%char)
  | EmptyString => true
  end.

Fixpoint strip_prefix (p s : string) : option string :=
  match p, s with
  | EmptyString, _ => Some s
  | String a p', String b s' => if Ascii.eqb a b then strip_prefix p' s' else None
  | String _ _, EmptyString => None
  end.

Definition scan_scalar (s : string) : option (jvalue * string) :=
  match s with
  | EmptyString => None
  | String c s' =>
      if Ascii.eqb c dquote then
        match scan_string s' with
        | Some (lit, rest) => Some (JStr lit, rest)
        | None => None
        end
      else if Ascii.eqb c "-"%char then
        match scan_nat s' with
        | Some (n, rest) => if integer_ends rest then Some (JNum (- n), rest) else None
        | None => None
        end
      else
        match scan_nat s with
        | Some (n, rest) => if integer_ends rest then Some (JNum n, rest) else None
        | None =>
            match strip_prefix "true" s, strip_prefix "false" s, strip_prefix "null" s with
            | Some rest, _, _ => Some (JBool true, rest)
            | _, Some rest, _ => Some (JBool false, rest)
            | _, _, Some rest => Some (JNull, rest)
            | _, _, _ => None
            end
        end
  end.

(** The members of an object, from the first key to the closing brace.
    Every round consumes a character, so [length s] rounds are enough. *)
Fixpoint scan_members (fuel : nat) (s : string)
  : option (list (string * jvalue) * string) :=
  match fuel with
  | O => None
  | S fuel' =>
      match skip_space s with
      | String c s1 =>
          if Ascii.eqb c dquote then
            match scan_string s1 with
            | None => None
            | Some (key, s2) =>
                match skip_space s2 with
                | String ":" s3 =>
                    match scan_scalar (skip_space s3) with
                    | None => None
                    | Some (v, s4) =>
                        match skip_space s4 with
                        | String "," s5 =>
                            match scan_members fuel' s5 with
                            | Some (ms, rest) => Some ((key, v) :: ms, rest)
                            | None => None
                            end
                        | String "}" s5 => Some ([(key, v)], s5)
                        | _ => None
                        end
                    end
                | _ => None
                end
            end
          else None
      | EmptyString => None
      end
  end.

(** A JSON text of the fragment: [None] stands for the value [null]. *)
Definition scan_value (s : string)
  : option (option (list (string * jvalue)) * string) :=
  match skip_space s with
  | String "{" s1 =>
      match skip_space s1 with
      | String "}" s2 => Some (Some [], s2)
      | _ =>
          match scan_members (String.length s1) s1 with
          | Some (ms, rest) => Some (Some ms, rest)
          | None => None
          end
      end
  | s0 =>
      match strip_prefix "null" s0 with
      | Some rest => Some (None, rest)
      | None => None
      end
  end.

(** The caller's target: [Status int], [Environment string],
    [LatestReceipt string] and [IsRetryable bool], tagged as in
    [IAPResponse]. *)
Record Summary : Type := {
  sum_Status : Z;
  sum_Environment : string;
  sum_LatestReceipt : string;
  sum_IsRetryable : bool
}.

Inductive field : Type := FStatus | FEnvironment | FLatestReceipt | FIsRetryable.

Definition tag (f : field) : string :=
  match f with
  | FStatus => "status"
  | FEnvironment => "environment"
  | FLatestReceipt => "latest_receipt"
  | FIsRetryable => "is-retryable"
  end.

Definition lower (c : ascii) : ascii :=
  let n := nat_of_ascii c in
  if ((65 <=? n) && (n <=? 90))%nat then ascii_of_nat (n + 32) else c.

Fixpoint lower_string (s : string) : string :=
  match s with
  | EmptyString => EmptyString
  | String c s' => String (lower c) (lower_string s')
  end.

(** Keys match field tags without regard to the case of ASCII letters. *)
Definition field_of_key (key : string) : option field :=
  let k := lower_string key in
  if String.eqb k (tag FStatus) then Some FStatus
  else if String.eqb k (tag FEnvironment) then Some FEnvironment
  else if String.eqb k (tag FLatestReceipt) then Some FLatestReceipt
  else if String.eqb k (tag FIsRetryable) then Some FIsRetryable
  else None.

Definition read (m : Summary) (f : field) : jvalue :=
  match f with
  | FStatus => JNum (sum_Status m)
  | FEnvironment => JStr (sum_Environment m)
  | FLatestReceipt => JStr (sum_LatestReceipt m)
  | FIsRetryable => JBool (sum_IsRetryable m)
  end.

Definition fits_int (n : Z) : bool :=
  (- 2 ^ 63 <=? n) && (n <? 2 ^ 63).

(** Stores one value in one field: [null] leaves the field as it is, and
    a value of the wrong kind is an error that leaves it as it is too. *)
Definition store (m : Summary) (f : field) (v : jvalue) : Summary * bool :=
  match f, v with
  | _, JNull => (m, true)
  | FStatus, JNum n =>
      if fits_int n then
        ({| sum_Status := n; sum_Environment := sum_Environment m;
            sum_LatestReceipt := sum_LatestReceipt m;
            sum_IsRetryable := sum_IsRetryable m |}, true)
      else (m, false)
  | FEnvironment, JStr s =>
      ({| sum_Status := sum_Status m; sum_Environment := s;
          sum_LatestReceipt := sum_LatestReceipt m;
          sum_IsRetryable := sum_IsRetryable m |}, true)
  | FLatestReceipt, JStr s =>
      ({| sum_Status := sum_Status m; sum_Environment := sum_Environment m;
          sum_LatestReceipt := s; sum_IsRetryable := sum_IsRetryable m |}, true)
  | FIsRetryable, JBool b =>
      ({| sum_Status := sum_Status m; sum_Environment := sum_Environment m;
          sum_LatestReceipt := sum_LatestReceipt m; sum_IsRetryable := b |}, true)
  | _, _ => (m, false)
  end.

Definition type_error : error :=
  errors_New "json: cannot unmarshal value into Go struct field".
Definition syntax_error : error :=
  errors_New "json: syntax error".
Definition invalid_unmarshal_error : error :=
  errors_New "json: Unmarshal(nil or non-pointer)".

(** Stores the members in order. Keys without a field are skipped; the
    first error is kept and the remaining members are still stored. *)
Fixpoint store_members (ms : list (string * jvalue)) (m : Summary) (err : option error)
  : option error * Summary :=
  match ms with
  | [] => (err, m)
  | (key, v) :: ms' =>
      match field_of_key key with
      | None => store_members ms' m err
      | Some f =>
          let '(m', ok) := store m f v in
          store_members ms' m'
            (match err with
             | Some e => Some e
             | None => if ok then None else Some type_error
             end)
      end
  end.

(** What a [result interface{}] holds: a non-nil pointer to the caller's
    [Summary], nothing, or a value that is not a pointer. *)
Inductive iface : Type := ToSummary | NilIface | NotAPointer.

(** The whole input must be one value. *)
Definition parse_all (buf : string) : option (option (list (string * jvalue))) :=
  match scan_value buf with
  | Some (v, rest) =>
      match skip_space rest with
      | EmptyString => Some v
      | String _ _ => None
      end
  | None => None
  end.

(** [json.Unmarshal(buf, &result)]: through a pointer to a struct it fills
    the struct, except that [null] sets [result] itself to nil; a [result]
    that holds no such pointer is rebound to the decoded value. *)
Definition unmarshal (buf : string) (result : iface) (m : Summary)
  : option error * iface * Summary :=
  match parse_all buf with
  | None => (Some syntax_error, result, m)
  | Some None => (None, NilIface, m)
  | Some (Some ms) =>
      match result with
      | ToSummary => let '(err, m') := store_members ms m None in (err, result, m')
      | _ => (None, NotAPointer, m)
      end
  end.

(** The members of an object stored into a [StatusResponse], whose only
    field is tagged [status]. *)
Fixpoint store_status (ms : list (string * jvalue)) (r : StatusResponse)
    (err : option error) : option error * StatusResponse :=
  match ms with
  | [] => (err, r)
  | (key, v) :: ms' =>
      if String.eqb (lower_string key) "status" then
        match v with
        | JNull => store_status ms' r err
        | JNum n =>
            if fits_int n then store_status ms' {| Status := n |} err
            else store_status ms' r
                   (match err with Some e => Some e | None => Some type_error end)
        | _ =>
            store_status ms' r
              (match err with Some e => Some e | None => Some type_error end)
        end
      else store_status ms' r err
  end.

(** [json.Unmarshal(buf, &r)] for [r StatusResponse]. *)
Definition unmarshal_status (buf : string) (r : StatusResponse)
  : option error * StatusResponse :=
  match parse_all buf with
  | None => (Some syntax_error, r)
  | Some None => (None, r)
  | Some (Some ms) => store_status ms r None
  end.

(** [json.NewDecoder(body).Decode(result)]: reads the first value of the
    stream and ignores what follows it. A stream that breaks before the
    value is complete reports its read error. *)
Definition decode (body : io_ReadCloser) (result : iface) (m : Summary)
  : option error * Summary :=
  match scan_value (stream_data body) with
  | None =>
      match stream_err body with
      | Some e => (Some e, m)
      | None => (Some syntax_error, m)
      end
  | Some (v, _) =>
      match result, v with
      | ToSummary, Some ms => store_members ms m None
      | ToSummary, None => (None, m)
      | _, _ => (Some invalid_unmarshal_error, m)
      end
  end.

Definition field_eqb (f g : field) : bool :=
  match f, g with
  | FStatus, FStatus | FEnvironment, FEnvironment
  | FLatestReceipt, FLatestReceipt | FIsRetryable, FIsRetryable => true
  | _, _ => false
  end.

Definition names (f : field) (kv : string * jvalue) : bool :=
  match field_of_key (fst kv) with
  | Some g => field_eqb g f
  | None => false
  end.

(** The first value of the stream is an object with a key for field [f]. *)
Definition mentions (body : io_ReadCloser) (f : field) : bool :=
  match scan_value (stream_data body) with
  | Some (Some ms, _) => existsb (names f) ms
  | _ => false
  end.

(** JSON string literals: quote and backslash are escaped. *)
Fixpoint escape (s : string) : string :=
  match s with
  | EmptyString => EmptyString
  | String c s' =>
      if Ascii.eqb c dquote || Ascii.eqb c backslash
      then String backslash (String c (escape s'))
      else String c (escape s')
  end.

Definition quote (s : string) : string :=
  String dquote (escape s ++ String dquote EmptyString).

(** [url.Parse] rejects an address that starts with a colon (it has no
    scheme) or that holds an ASCII control character. *)
Fixpoint has_control (s : string) : bool :=
  match s with
  | EmptyString => false
  | String c s' =>
      let n := nat_of_ascii c in
      ((n <? 32) || (n =? 127))%nat || has_control s'
  end.

Definition parse_error (url : string) : option error :=
  match url with
  | String ":" _ => Some (errors_New "parse: missing protocol scheme")
  | _ =>
      if has_control url
      then Some (errors_New "parse: net/url: invalid control character in URL")
      else None
  end.

(** The servers: what each address answers. *)
Definition servers : Type := list (string * (error + http_Response)).

Fixpoint answer (w : servers) (url : string) : error + http_Response :=
  match w with
  | [] => inl (errors_New "dial tcp: no such host")
  | (u, r) :: w' => if String.eqb u url then r else answer w' url
  end.

Definition round_trip (cli : http_Client unit) (req : http_Request nat) (w : servers)
  : (error + http_Response) * servers :=
  (answer w (req_URL req), w).

#[export] Instance runtime : Runtime := {|
  Context := nat;
  RoundTripper := unit;
  Iface := iface;
  Mem := Summary;
  World := servers;
  url_Parse_error := parse_error;
  json_string := quote;
  http_RoundTrip := round_trip;
  json_Unmarshal := unmarshal;
  json_Unmarshal_StatusResponse := unmarshal_status;
  json_Decoder_Decode := decode
|}.

(** A response with status 200 and the given body, and the same as the
    answer of a server. *)
Definition response (body : string) : http_Response :=
  {| resp_StatusCode := 200;
     resp_Body := {| stream_data := body; stream_err := None |} |}.

Definition reply (body : string) : error + http_Response :=
  inr (response body).

Definition empty_summary : Summary :=
  {| sum_Status := 0; sum_Environment := EmptyString;
     sum_LatestReceipt := EmptyString; sum_IsRetryable := false |}.

(** A state in which nothing has been sent. *)
Definition start (c : Client) (w : servers) : State :=
  {| st_client := c; st_mem := empty_summary; st_world := w;
     st_sent := []; st_closed := [] |}.

Definition summary (status : Z) (environment : string) : Summary :=
  {| sum_Status := status; sum_Environment := environment;
     sum_LatestReceipt := EmptyString; sum_IsRetryable := false |}.

(** The request of the specification's example. *)
Definition receipt : IAPRequest :=
  {| ReceiptData := "abc123"; Password := EmptyString;
     ExcludeOldTransactions := false |}.

(** Production answers with status [status]; the sandbox accepts. *)
Definition stores (status : string) : servers :=
  [ (ProductionURL, reply (js "{'status':" ++ status ++ js ",'environment':'Production'}"));
    (SandboxURL, reply (js "{'status':0,'environment':'Sandbox'}")) ].

(** The sandbox answers with a status and nothing else. *)
Definition terse_stores : servers :=
  [ (ProductionURL, reply (js "{'status':21007,'environment':'Production'}"));
    (SandboxURL, reply (js "{'status':0}")) ].

(** The sandbox, too, answers with status 21007. *)
Definition stubborn_stores : servers :=
  [ (ProductionURL, reply (js "{'status':21007}"));
    (SandboxURL, reply (js "{'status':21007,'environment':'Sandbox'}")) ].

(** The sandbox cannot be reached. *)
Definition production_only : servers :=
  [ (ProductionURL, reply (js "{'status':21007,'environment':'Production'}")) ].

(** Production answers with a page that is not JSON. *)
Definition broken_stores : servers :=
  [ (ProductionURL, reply "<html>Service Unavailable</html>") ].

(** A client whose sandbox address was overridden with one that has no
    scheme. *)
Definition misconfigured : Client :=
  {| Client_ProductionURL := ProductionURL;
     Client_SandboxURL := ":";
     Client_httpCli := Client_httpCli (New false);
     Client_IsProduct := false |}.

(** A client whose production address holds a control character. *)
Definition unaddressed : Client :=
  {| Client_ProductionURL := String "127"%char ProductionURL;
     Client_SandboxURL := SandboxURL;
     Client_httpCli := Client_httpCli (New false);
     Client_IsProduct := false |}.

End TestEnv.

(** ** Vocabulary of the statements *)

(** The request [Verify] and [parseResponse] build for an address: a POST
    of the encoded [reqBody] with the fixed content type, under [ctx]. *)
Definition post_request `{Runtime}
    (url : string) (ctx : Context) (reqBody : IAPRequest) : http_Request Context :=
  {| req_Method := "POST";
     req_URL := url;
     req_Header := [("Content-Type", ContentType)];
     req_Body := fst (json_Encoder_Encode bytes_Buffer_new reqBody);
     req_ctx := Some ctx |}.

Definition production_request `{Runtime}
    (s : State) (ctx : Context) (reqBody : IAPRequest) : http_Request Context :=
  post_request (Client_ProductionURL (st_client s)) ctx reqBody.

Definition sandbox_request `{Runtime}
    (s : State) (ctx : Context) (reqBody : IAPRequest) : http_Request Context :=
  post_request (Client_SandboxURL (st_client s)) ctx reqBody.

(** The production endpoint answered a call made in state [s], and its
    answer decoded: [resp] is the response and [w] the network after it,
    [buf] the body read, [result'] and [m] the local [result] and the
    caller's memory after [json.Unmarshal(buf, &result)], and [r] the
    decoded status envelope. *)
Record ProductionReply `{Runtime}
    (s : State) (ctx : Context) (reqBody : IAPRequest) (result : Iface)
    (resp : http_Response) (w : World) (buf : string)
    (result' : Iface) (m : Mem) (r : StatusResponse) : Prop := {
  reply_address : url_Parse_error (Client_ProductionURL (st_client s)) = None;
  reply_round_trip :
    http_RoundTrip (Client_httpCli (st_client s))
      (production_request s ctx reqBody) (st_world s) = (inr resp, w);
  reply_body : ioutil_ReadAll (resp_Body resp) = inr buf;
  reply_target : json_Unmarshal buf result (st_mem s) = (None, result', m);
  reply_status : json_Unmarshal_StatusResponse buf {| Status := 0 |} = (None, r)
}.

(** A decoder rejects a body during a call made in state [s]: the
    production body does not decode into the target, or it does but not
    into the status envelope, or the sandbox body of the fallback does not
    decode into the target. [e] is the decoder's error and [m] the caller's
    memory as the decoders left it. *)
Inductive DecodeFails `{Runtime}
    (s : State) (ctx : Context) (reqBody : IAPRequest) (result : Iface)
  : error -> Mem -> Prop :=
| target_rejected resp w buf e result' m :
    url_Parse_error (Client_ProductionURL (st_client s)) = None ->
    http_RoundTrip (Client_httpCli (st_client s))
      (production_request s ctx reqBody) (st_world s) = (inr resp, w) ->
    ioutil_ReadAll (resp_Body resp) = inr buf ->
    json_Unmarshal buf result (st_mem s) = (Some e, result', m) ->
    DecodeFails s ctx reqBody result e m
| envelope_rejected resp w buf e result' m r :
    url_Parse_error (Client_ProductionURL (st_client s)) = None ->
    http_RoundTrip (Client_httpCli (st_client s))
      (production_request s ctx reqBody) (st_world s) = (inr resp, w) ->
    ioutil_ReadAll (resp_Body resp) = inr buf ->
    json_Unmarshal buf result (st_mem s) = (None, result', m) ->
    json_Unmarshal_StatusResponse buf {| Status := 0 |} = (Some e, r) ->
    DecodeFails s ctx reqBody result e m
| sandbox_rejected resp w buf result' m r resp2 w2 e m2 :
    ProductionReply s ctx reqBody result resp w buf result' m r ->
    Client_IsProduct (st_client s) = false ->
    Status r = 21007 ->
    url_Parse_error (Client_SandboxURL (st_client s)) = None ->
    http_RoundTrip (Client_httpCli (st_client s))
      (sandbox_request s ctx reqBody) w = (inr resp2, w2) ->
    json_Decoder_Decode (resp_Body resp2) result' m = (Some e, m2) ->
    DecodeFails s ctx reqBody result e m2.

(** The sandbox fallback in the specification's words, for a call made in
    state [s]: whenever the production reply of a client that is not
    production-only decodes to status 21007, one more request follows, a
    POST of the same body to the sandbox address, and the target ends as
    the sandbox body decodes, not as the production body did. *)
Definition fallback_as_worded `{Runtime}
    (s : State) (ctx : Context) (reqBody : IAPRequest) (result : Iface) : Prop :=
  forall resp w buf result' m r,
    ProductionReply s ctx reqBody result resp w buf result' m r ->
    Client_IsProduct (st_client s) = false ->
    Status r = 21007 ->
    let out := Verify ctx reqBody result s in
    st_sent (snd out)
    = (st_sent s ++ [production_request s ctx reqBody;
                     sandbox_request s ctx reqBody])%list /\
    exists resp2 w2,
      http_RoundTrip (Client_httpCli (st_client s))
        (sandbox_request s ctx reqBody) w = (inr resp2, w2) /\
      st_mem (snd out)
      = snd (json_Decoder_Decode (resp_Body resp2) result (st_mem s)).

(** The state after the transport took [req] and left the network as [w]. *)
Definition after_send `{Runtime}
    (s : State) (req : http_Request Context) (w : World) : State :=
  {| st_client := st_client s; st_mem := st_mem s; st_world := w;
     st_sent := (st_sent s ++ [req])%list; st_closed := st_closed s |}.

(** The condition of the sandbox fallback, as [parseResponse] tests it. *)
Definition fallback_condition `{Runtime} (s : State) (r : StatusResponse) : bool :=
  Bool.eqb (Client_IsProduct (st_client s)) false && (Status r =? 21007).

(** The [error] value of a decoder as the outcome of the call. *)
Definition outcome_of (err : option error) : error + unit :=
  match err with
  | Some e => inl e
  | None => inr tt
  end.

(** The status codes [HandleError] has a message of their own for. *)
Definition documented_codes : list Z :=
  [21000; 21002; 21003; 21004; 21005; 21007; 21008; 21010].

(** ** model.go: [numericString] *)

(** [json.Number] is a string type that holds the text of a number;
    [String] returns that text. *)
Definition json_Number : Type := string.

Definition Number_String (n : json_Number) : string := n.

Definition numericString : Type := string.

(** What [encoding/json] does with a [json.Number] target:
    [json.Unmarshal(b, &number)]. *)
Class NumberDecoder : Type := {
  json_Unmarshal_Number : string -> json_Number -> option error * json_Number
}.

(** [(n *numericString) UnmarshalJSON(b)]: the receiver's old and new
    values are the argument [n] and the second component. *)
Definition numericString_UnmarshalJSON `{NumberDecoder}
    (n : numericString) (b : string) : option error * numericString :=
  let number : json_Number := EmptyString in
  let '(err, number) := json_Unmarshal_Number b number in
  match err with
  | Some e => (Some e, n)
  | None => (None, Number_String number)
  end.

(** ** The paths of a call *)

(** [Run s ctx reqBody result out s'] lists the ways through [Verify] and
    [parseResponse] for a call made in state [s], each with the value
    returned and the state left. *)
Inductive Run `{Runtime}
    (s : State) (ctx : Context) (reqBody : IAPRequest) (result : Iface)
  : error + unit -> State -> Prop :=
| run_address_error e :
    url_Parse_error (Client_ProductionURL (st_client s)) = Some e ->
    Run s ctx reqBody result (inl e) s
| run_transport_error e w :
    url_Parse_error (Client_ProductionURL (st_client s)) = None ->
    http_RoundTrip (Client_httpCli (st_client s))
      (production_request s ctx reqBody) (st_world s) = (inl e, w) ->
    Run s ctx reqBody result (inl e)
      (after_send s (production_request s ctx reqBody) w)
| run_read_error resp w e :
    url_Parse_error (Client_ProductionURL (st_client s)) = None ->
    http_RoundTrip (Client_httpCli (st_client s))
      (production_request s ctx reqBody) (st_world s) = (inr resp, w) ->
    ioutil_ReadAll (resp_Body resp) = inl e ->
    Run s ctx reqBody result (inl e)
      (Body_Close resp (after_send s (production_request s ctx reqBody) w))
| run_target_error resp w buf e result' m :
    url_Parse_error (Client_ProductionURL (st_client s)) = None ->
    http_RoundTrip (Client_httpCli (st_client s))
      (production_request s ctx reqBody) (st_world s) = (inr resp, w) ->
    ioutil_ReadAll (resp_Body resp) = inr buf ->
    json_Unmarshal buf result (st_mem s) = (Some e, result', m) ->
    Run s ctx reqBody result (inl e)
      (Body_Close resp
         (store_mem (after_send s (production_request s ctx reqBody) w) m))
| run_envelope_error resp w buf e result' m r :
    url_Parse_error (Client_ProductionURL (st_client s)) = None ->
    http_RoundTrip (Client_httpCli (st_client s))
      (production_request s ctx reqBody) (st_world s) = (inr resp, w) ->
    ioutil_ReadAll (resp_Body resp) = inr buf ->
    json_Unmarshal buf result (st_mem s) = (None, result', m) ->
    json_Unmarshal_StatusResponse buf {| Status := 0 |} = (Some e, r) ->
    Run s ctx reqBody result (inl e)
      (Body_Close resp
         (store_mem (after_send s (production_request s ctx reqBody) w) m))
| run_stands resp w buf result' m r :
    ProductionReply s ctx reqBody result resp w buf result' m r ->
    fallback_condition s r = false ->
    Run s ctx reqBody result (inr tt)
      (Body_Close resp
         (store_mem (after_send s (production_request s ctx reqBody) w) m))
| run_fallback_address_error resp w buf result' m r e :
    ProductionReply s ctx reqBody result resp w buf result' m r ->
    fallback_condition s r = true ->
    url_Parse_error (Client_SandboxURL (st_client s)) = Some e ->
    Run s ctx reqBody result (inl e)
      (Body_Close resp
         (store_mem (after_send s (production_request s ctx reqBody) w) m))
| run_fallback_transport_error resp w buf result' m r e w2 :
    ProductionReply s ctx reqBody result resp w buf result' m r ->
    fallback_condition s r = true ->
    url_Parse_error (Client_SandboxURL (st_client s)) = None ->
    http_RoundTrip (Client_httpCli (st_client s))
      (sandbox_request s ctx reqBody) w = (inl e, w2) ->
    Run s ctx reqBody result (inl e)
      (Body_Close resp
         (after_send
            (store_mem (after_send s (production_request s ctx reqBody) w) m)
            (sandbox_request s ctx reqBody) w2))
| run_fallback_reply resp w buf result' m r resp2 w2 :
    ProductionReply s ctx reqBody result resp w buf result' m r ->
    fallback_condition s r = true ->
    url_Parse_error (Client_SandboxURL (st_client s)) = None ->
    http_RoundTrip (Client_httpCli (st_client s))
      (sandbox_request s ctx reqBody) w = (inr resp2, w2) ->
    Run s ctx reqBody result
      (outcome_of (fst (json_Decoder_Decode (resp_Body resp2) result' m)))
      (Body_Close resp
         (Body_Close resp2
            (store_mem
               (after_send
                  (store_mem (after_send s (production_request s ctx reqBody) w) m)
                  (sandbox_request s ctx reqBody) w2)
               (snd (json_Decoder_Decode (resp_Body resp2) result' m))))).

(** A library call made for a call in state [s] reports the error [e]:
    parsing an address, a round trip, reading the production body, or one
    of the decoders. *)
Inductive LibraryFails `{Runtime}
    (s : State) (ctx : Context) (reqBody : IAPRequest) (result : Iface)
    (e : error) : Prop :=
| fails_production_address :
    url_Parse_error (Client_ProductionURL (st_client s)) = Some e ->
    LibraryFails s ctx reqBody result e
| fails_production_transport w :
    url_Parse_error (Client_ProductionURL (st_client s)) = None ->
    http_RoundTrip (Client_httpCli (st_client s))
      (production_request s ctx reqBody) (st_world s) = (inl e, w) ->
    LibraryFails s ctx reqBody result e
| fails_read resp w :
    url_Parse_error (Client_ProductionURL (st_client s)) = None ->
    http_RoundTrip (Client_httpCli (st_client s))
      (production_request s ctx reqBody) (st_world s) = (inr resp, w) ->
    ioutil_ReadAll (resp_Body resp) = inl e ->
    LibraryFails s ctx reqBody result e
| fails_decoder m :
    DecodeFails s ctx reqBody result e m ->
    LibraryFails s ctx reqBody result e
| fails_sandbox_address resp w buf result' m r :
    ProductionReply s ctx reqBody result resp w buf result' m r ->
    fallback_condition s r = true ->
    url_Parse_error (Client_SandboxURL (st_client s)) = Some e ->
    LibraryFails s ctx reqBody result e
| fails_sandbox_transport resp w buf result' m r w2 :
    ProductionReply s ctx reqBody result resp w buf result' m r ->
    fallback_condition s r = true ->
    url_Parse_error (Client_SandboxURL (st_client s)) = None ->
    http_RoundTrip (Client_httpCli (st_client s))
      (sandbox_request s ctx reqBody) w = (inl e, w2) ->
    LibraryFails s ctx reqBody result e.

(** Every library call of a call in state [s] went well, and [m] is what
    the decoders left in the caller's memory: the production reply stands,
    or the sandbox reply was decoded over it. *)
Inductive Succeeds `{Runtime}
    (s : State) (ctx : Context) (reqBody : IAPRequest) (result : Iface)
  : Mem -> Prop :=
| succeeds_production resp w buf result' m r :
    ProductionReply s ctx reqBody result resp w buf result' m r ->
    fallback_condition s r = false ->
    Succeeds s ctx reqBody result m
| succeeds_sandbox resp w buf result' m r resp2 w2 m2 :
    ProductionReply s ctx reqBody result resp w buf result' m r ->
    fallback_condition s r = true ->
    url_Parse_error (Client_SandboxURL (st_client s)) = None ->
    http_RoundTrip (Client_httpCli (st_client s))
      (sandbox_request s ctx reqBody) w = (inr resp2, w2) ->
    json_Decoder_Decode (resp_Body resp2) result' m = (None, m2) ->
    Succeeds s ctx reqBody result m2.

(** A status [HandleError] has no case for. *)
Definition undocumented (status : Z) : Prop :=
  status <> 0 /\ ~ In status documented_codes /\ ~ (21100 <= status <= 21199).

(** ** More to run: [Runs] *)
Module Runs.
Import TestEnv.

(** No server can be reached. *)
Definition offline : servers := [].

(** The connection breaks while the production body is read. *)
Definition cut_off : servers :=
  [ (ProductionURL,
     inr {| resp_StatusCode := 200;
            resp_Body := {| stream_data := js "{'status':0,'envir";
                            stream_err := Some (errors_New "unexpected EOF") |} |}) ].

(** A client whose two addresses were overridden, and servers there. *)
Definition relocated : Client :=
  {| Client_ProductionURL := "https://proxy.example/buy";
     Client_SandboxURL := "https://proxy.example/sandbox";
     Client_httpCli := Client_httpCli (New false);
     Client_IsProduct := false |}.

Definition proxy : servers :=
  [ ("https://proxy.example/buy", reply (js "{'status':21007}"));
    ("https://proxy.example/sandbox", reply (js "{'status':0,'environment':'Sandbox'}")) ].

(** Production reports a sandbox receipt, with an [environment] of the
    wrong kind for the target; the sandbox would accept. *)
Definition mistyped : servers :=
  [ (ProductionURL, reply (js "{'status':21007,'environment':5}"));
    (SandboxURL, reply (js "{'status':0,'environment':'Sandbox'}")) ].

(** [json.Unmarshal] into a [json.Number], for integers: a literal or a
    quoted literal is kept as its text, [null] changes nothing, and
    anything else is an error. *)
Definition unmarshal_number (b : string) (number : json_Number)
  : option error * json_Number :=
  match scan_scalar b with
  | Some (JNum _, EmptyString) => (None, b)
  | Some (JNull, EmptyString) => (None, number)
  | Some (JStr lit, EmptyString) =>
      match scan_scalar lit with
      | Some (JNum _, EmptyString) => (None, lit)
      | _ => (Some (errors_New "json: invalid number literal"), number)
      end
  | _ => (Some (errors_New "json: cannot unmarshal into Go value of type json.Number"),
          number)
  end.

#[export] Instance numbers : NumberDecoder :=
  {| json_Unmarshal_Number := unmarshal_number |}.

(** A transport that plays a script: each round trip takes the next
    answer off the list, whatever the request. The rest is as in
    [TestEnv]. *)
Definition play (cli : http_Client unit) (req : http_Request nat)
    (script : list (error + http_Response))
  : (error + http_Response) * list (error + http_Response) :=
  match script with
  | [] => (inl (errors_New "dial tcp: no such host"), [])
  | answer :: rest => (answer, rest)
  end.

Definition scripted : Runtime := {|
  Context := nat;
  RoundTripper := unit;
  Iface := iface;
  Mem := Summary;
  World := list (error + http_Response);
  url_Parse_error := parse_error;
  json_string := quote;
  http_RoundTrip := play;
  json_Unmarshal := unmarshal;
  json_Unmarshal_StatusResponse := unmarshal_status;
  json_Decoder_Decode := decode
|}.

(** A state of the scripted runtime in which nothing has been sent. *)
Definition curtain (script : list (error + http_Response)) : @State scripted :=
  {| st_client := @New scripted false; st_mem := empty_summary;
     st_world := script; st_sent := []; st_closed := [] |}.

(** Production answers with the given HTTP status code and a receipt of
    the sandbox; the sandbox accepts. *)
Definition script_with_code (code : Z) : list (error + http_Response) :=
  [ inr {| resp_StatusCode := code;
           resp_Body := {| stream_data := js "{'status':21007}";
                           stream_err := None |} |};
    reply (js "{'status':0,'environment':'Sandbox'}") ].

End Runs.

(** ** The client as the target of its own call

    [result] is an [interface{}], so a caller may pass the client itself:
    [c.Verify(ctx, req, c)]. The decoders then write to the very struct
    the call reads its configuration from. Here the value of [result]
    says whether it is that pointer, and [parseResponse] and [Verify] are
    the same code with decoders that reach the client in that case. *)
Module Shared.

Inductive Result `{Runtime} : Type :=
| TheClient
| Other (result : Iface).

(** What [encoding/json] does when the target is the [Client] struct:
    [json.Unmarshal(buf, &result)] for a [result] that holds the pointer
    [c] (the second component is [Some i] when the local [result] is
    rebound to [i]), and [json.NewDecoder(body).Decode(c)]. *)
Class ClientDecoder `{Runtime} : Type := {
  json_Unmarshal_Client :
    string -> Client -> option error * option Iface * Client;
  json_Decoder_Decode_Client : io_ReadCloser -> Client -> option error * Client
}.

Definition store_client `{Runtime} (s : State) (c : Client) : State :=
  {| st_client := c; st_mem := st_mem s; st_world := st_world s;
     st_sent := st_sent s; st_closed := st_closed s |}.

(** [err = json.Unmarshal(buf, &result); if err != nil { return err }] *)
Definition Unmarshal_any `{ClientDecoder} (buf : string) (result : Result)
  : M Result :=
  match result with
  | Other i => i' <- Unmarshal_result buf i ;; ret (Other i')
  | TheClient =>
      fun s =>
        let '(err, rebound, c) := json_Unmarshal_Client buf (st_client s) in
        match err with
        | Some e => (inl e, store_client s c)
        | None =>
            (inr (match rebound with
                  | Some i => Other i
                  | None => TheClient
                  end),
             store_client s c)
        end
  end.

(** [return json.NewDecoder(body).Decode(result)] *)
Definition Decode_any `{ClientDecoder} (body : io_ReadCloser) (result : Result)
  : M unit :=
  match result with
  | Other i => Decode_result body i
  | TheClient =>
      fun s =>
        let '(err, c) := json_Decoder_Decode_Client body (st_client s) in
        match err with
        | Some e => (inl e, store_client s c)
        | None => (inr tt, store_client s c)
        end
  end.

Definition parseResponse `{ClientDecoder}
    (resp : http_Response) (result : Result) (ctx : Context) (reqBody : IAPRequest)
  : M unit :=
  buf <- try (ioutil_ReadAll (resp_Body resp)) ;;
  result <- Unmarshal_any buf result ;;
  r <- Unmarshal_status buf {| Status := 0 |} ;;
  c <- load_client ;;
  if Bool.eqb (Client_IsProduct c) false && (Status r =? 21007) then
    let '(b, _) := json_Encoder_Encode bytes_Buffer_new reqBody in
    req <- try (http_NewRequest "POST" (Client_SandboxURL c) b) ;;
    let req := req_Header_Set req "Content-Type" ContentType in
    let req := req_WithContext req ctx in
    resp <- http_Client_Do (Client_httpCli c) req ;;
    defer (Body_Close resp) (Decode_any (resp_Body resp) result)
  else
    ret tt.

Definition Verify `{ClientDecoder}
    (ctx : Context) (reqBody : IAPRequest) (result : Result) : M unit :=
  c <- load_client ;;
  let '(b, _) := json_Encoder_Encode bytes_Buffer_new reqBody in
  req <- try (http_NewRequest "POST" (Client_ProductionURL c) b) ;;
  let req := req_Header_Set req "Content-Type" ContentType in
  let req := req_WithContext req ctx in
  resp <- http_Client_Do (Client_httpCli c) req ;;
  defer (Body_Close resp) (parseResponse resp result ctx reqBody).

End Shared.

(** The decoders of [TestEnv] for a [Client] target. The struct has no
    field tags, so its keys are the names of its exported fields,
    [ProductionURL], [SandboxURL] and [IsProduct], in any case of letters;
    [httpCli] is unexported and out of the decoders' reach. *)
Module SharedEnv.
Import TestEnv.

Inductive client_field : Type := FProductionURL | FSandboxURL | FIsProduct.

Definition client_field_of_key (key : string) : option client_field :=
  let k := lower_string key in
  if String.eqb k "productionurl" then Some FProductionURL
  else if String.eqb k "sandboxurl" then Some FSandboxURL
  else if String.eqb k "isproduct" then Some FIsProduct
  else None.

Definition store_client_field (c : Client) (f : client_field) (v : jvalue)
  : Client * bool :=
  match f, v with
  | _, JNull => (c, true)
  | FProductionURL, JStr s =>
      ({| Client_ProductionURL := s; Client_SandboxURL := Client_SandboxURL c;
          Client_httpCli := Client_httpCli c;
          Client_IsProduct := Client_IsProduct c |}, true)
  | FSandboxURL, JStr s =>
      ({| Client_ProductionURL := Client_ProductionURL c; Client_SandboxURL := s;
          Client_httpCli := Client_httpCli c;
          Client_IsProduct := Client_IsProduct c |}, true)
  | FIsProduct, JBool b =>
      ({| Client_ProductionURL := Client_ProductionURL c;
          Client_SandboxURL := Client_SandboxURL c;
          Client_httpCli := Client_httpCli c; Client_IsProduct := b |}, true)
  | _, _ => (c, false)
  end.

Fixpoint store_client_members (ms : list (string * jvalue)) (c : Client)
    (err : option error) : option error * Client :=
  match ms with
  | [] => (err, c)
  | (key, v) :: ms' =>
      match client_field_of_key key with
      | None => store_client_members ms' c err
      | Some f =>
          let '(c', ok) := store_client_field c f v in
          store_client_members ms' c'
            (match err with
             | Some e => Some e
             | None => if ok then None else Some type_error
             end)
      end
  end.

(** [null] sets the local [result] to nil and leaves the struct. *)
Definition unmarshal_client (buf : string) (c : Client)
  : option error * option iface * Client :=
  match parse_all buf with
  | None => (Some syntax_error, None, c)
  | Some None => (None, Some NilIface, c)
  | Some (Some ms) =>
      let '(err, c') := store_client_members ms c None in (err, None, c')
  end.

Definition decode_client (body : io_ReadCloser) (c : Client)
  : option error * Client :=
  match scan_value (stream_data body) with
  | None =>
      match stream_err body with
      | Some e => (Some e, c)
      | None => (Some syntax_error, c)
      end
  | Some (Some ms, _) => store_client_members ms c None
  | Some (None, _) => (None, c)
  end.

#[export] Instance client_decoder : Shared.ClientDecoder := {|
  Shared.json_Unmarshal_Client := unmarshal_client;
  Shared.json_Decoder_Decode_Client := decode_client
|}.

(** Production accepts, and its reply has members named like the fields
    of the client. *)
Definition echoing : servers :=
  [ (ProductionURL,
     reply (js "{'status':0,'IsProduct':true,'SandboxURL':'http://localhost/'}")) ].

End SharedEnv.

(** ** A target that the decoder replaces: [AnyEnv]

    The caller declares [var v interface{}] and passes [&v]. The decoder
    then does not fill anything in place: it stores a new map in [v] for
    every object it reads. [Mem] is the value of [v]: nothing, or the
    members of the object last stored. The transport and the status
    envelope are those of [TestEnv]. *)
Module AnyEnv.
Import TestEnv.

Inductive any_iface : Type := ToAny | NilAny | Detached.

(** [json.Unmarshal(buf, &result)]: [null] sets the local [result] to nil;
    an object goes to [v] when [result] points to it. *)
Definition unmarshal_any (buf : string) (result : any_iface)
    (v : option (list (string * jvalue)))
  : option error * any_iface * option (list (string * jvalue)) :=
  match parse_all buf with
  | None => (Some syntax_error, result, v)
  | Some None => (None, NilAny, v)
  | Some (Some ms) =>
      match result with
      | ToAny => (None, ToAny, Some ms)
      | _ => (None, Detached, v)
      end
  end.

(** [json.NewDecoder(body).Decode(result)]: an object replaces what [v]
    held, and [null] empties it. *)
Definition decode_any (body : io_ReadCloser) (result : any_iface)
    (v : option (list (string * jvalue)))
  : option error * option (list (string * jvalue)) :=
  match scan_value (stream_data body) with
  | None =>
      match stream_err body with
      | Some e => (Some e, v)
      | None => (Some syntax_error, v)
      end
  | Some (parsed, _) =>
      match result with
      | ToAny => (None, parsed)
      | _ => (Some invalid_unmarshal_error, v)
      end
  end.

Definition runtime : Runtime := {|
  Context := nat;
  RoundTripper := unit;
  Iface := any_iface;
  Mem := option (list (string * jvalue));
  World := servers;
  url_Parse_error := parse_error;
  json_string := quote;
  http_RoundTrip := round_trip;
  json_Unmarshal := unmarshal_any;
  json_Unmarshal_StatusResponse := unmarshal_status;
  json_Decoder_Decode := decode_any
|}.

(** The value a member of [v] has, if [v] holds such a member. *)
Definition member (v : option (list (string * jvalue))) (key : string)
  : option jvalue :=
  match v with
  | None => None
  | Some ms =>
      match find (fun kv => String.eqb (fst kv) key) ms with
      | Some kv => Some (snd kv)
      | None => None
      end
  end.

(** A state in which [v] is nil and nothing has been sent. *)
Definition start (w : servers) : @State runtime :=
  {| st_client := @New runtime false; st_mem := None; st_world := w;
     st_sent := []; st_closed := [] |}.

End AnyEnv.

(** ** Properties *)

(** Names the bytes of the encoded request instead of computing them. *)
Ltac go_encode :=
  try match goal with
      | reqBody : IAPRequest |- _ =>
          let enc := fresh "enc" in
          let Henc := fresh "Henc" in
          let b := fresh "b" in
          remember (json_Encoder_Encode bytes_Buffer_new reqBody)
            as enc eqn:Henc in *;
          clear Henc; destruct enc as [b ?]
      end.

Ltac go_unfold :=
  unfold Verify, parseResponse, bind, try, ret, defer, load_client,
    http_Client_Do, Unmarshal_result, Unmarshal_status, Decode_result,
    http_NewRequest, Body_Close, store_mem, after_send, fallback_condition,
    outcome_of, production_request, sandbox_request, post_request,
    req_WithContext, req_Header_Set, Header_Set in *;
  go_encode;
  simpl in *.

(** Follows the path the equations in the context select. *)
Ltac go_run :=
  repeat match goal with
         | E : _ = _ |- _ => rewrite E; simpl
         end.

(** Case analysis on a scrutinee that has no case analysis inside. *)
Ltac go_cases :=
  repeat match goal with
         | |- context [match ?x with _ => _ end] =>
             lazymatch x with
             | context [match _ with _ => _ end] => fail
             | _ => destruct x eqn:?; simpl
             end
         end.

(** C3. [HandleError] returns nil exactly for status 0, the message of its
    own for each documented code, the internal data access message on the
    whole range 21100..21199, and the unknown error message for every other
    non-zero status. *)
Theorem HandleError_table (status : Z) :
  (HandleError status = None <-> status = 0) /\
  (status = 21000 -> HandleError status = Some (errors_New
     "The App Store could not read the JSON object you provided.")) /\
  (status = 21002 -> HandleError status = Some (errors_New
     "The data in the receipt-data property was malformed or missing.")) /\
  (status = 21003 -> HandleError status = Some (errors_New
     "The receipt could not be authenticated.")) /\
  (status = 21004 -> HandleError status = Some (errors_New
     "The shared secret you provided does not match the shared secret on file for your account.")) /\
  (status = 21005 -> HandleError status = Some (errors_New
     "The receipt server is not currently available.")) /\
  (status = 21007 -> HandleError status = Some (errors_New
     "This receipt is from the test environment, but it was sent to the production environment for verification. Send it to the test environment instead.")) /\
  (status = 21008 -> HandleError status = Some (errors_New
     "This receipt is from the production environment, but it was sent to the test environment for verification. Send it to the production environment instead.")) /\
  (status = 21010 -> HandleError status = Some (errors_New
     "This receipt could not be authorized. Treat this the same as if a purchase was never made.")) /\
  (21100 <= status <= 21199 ->
     HandleError status = Some (errors_New "Internal data access error.")) /\
  (status <> 0 -> ~ In status documented_codes -> ~ (21100 <= status <= 21199) ->
     HandleError status = Some (errors_New "An unknown error occurred")).
Proof.
  repeat split.
  - unfold HandleError. destruct (Z.eqb_spec status 0); [easy | discriminate].
  - intros ->. reflexivity.
  - intros ->. reflexivity.
  - intros ->. reflexivity.
  - intros ->. reflexivity.
  - intros ->. reflexivity.
  - intros ->. reflexivity.
  - intros ->. reflexivity.
  - intros ->. reflexivity.
  - intros ->. reflexivity.
  - intros [Hlo Hhi]. unfold HandleError.
    repeat match goal with
           | |- context [status =? ?k] =>
               destruct (Z.eqb_spec status k); [lia |]
           end.
    rewrite Z.geb_leb.
    destruct (Z.leb_spec 21100 status); [| lia].
    destruct (Z.leb_spec status 21199); [| lia].
    reflexivity.
  - intros Hnz Hdoc Hrange. unfold HandleError.
    repeat match goal with
           | |- context [status =? ?k] =>
               destruct (Z.eqb_spec status k);
               [ first [ contradiction | exfalso; apply Hdoc; subst; simpl; tauto ] |]
           end.
    rewrite Z.geb_leb.
    destruct (Z.leb_spec 21100 status); [| reflexivity].
    destruct (Z.leb_spec status 21199); [lia | reflexivity].
Qed.

(** C8. A client made by [New] has a transport of its own with a timeout of
    ten seconds (10^10 nanoseconds, so it is bounded) and the two well-known
    addresses as its endpoints. *)
Theorem New_defaults `{Runtime} (isProduct : bool) :
  http_Timeout (Client_httpCli (New isProduct)) = 10 * time_Second /\
  http_Timeout (Client_httpCli (New isProduct)) = 10 * 1000000000 /\
  0 < http_Timeout (Client_httpCli (New isProduct)) /\
  http_Transport (Client_httpCli (New isProduct)) = None /\
  Client_ProductionURL (New isProduct) = "https://buy.itunes.apple.com/verifyReceipt" /\
  Client_SandboxURL (New isProduct) = "https://sandbox.itunes.apple.com/verifyReceipt" /\
  Client_IsProduct (New isProduct) = isProduct.
Proof.
  repeat split.
Qed.

(** With the target held apart from the client, as [State] holds it, the
    call leaves the client as it found it. (For a call that hands the
    client itself in as [result], see [Shared].) *)
Theorem Verify_preserves_client `{Runtime}
    (ctx : Context) (reqBody : IAPRequest) (result : Iface) (s : State) :
  let s' := snd (Verify ctx reqBody result s) in
  st_client s' = st_client s /\
  Client_ProductionURL (st_client s') = Client_ProductionURL (st_client s) /\
  Client_SandboxURL (st_client s') = Client_SandboxURL (st_client s) /\
  Client_IsProduct (st_client s') = Client_IsProduct (st_client s) /\
  Client_httpCli (st_client s') = Client_httpCli (st_client s).
Proof.
  assert (E : st_client (snd (Verify ctx reqBody result s)) = st_client s).
  { go_unfold. go_cases; reflexivity. }
  simpl. rewrite E. repeat split.
Qed.

(** *** The runs of [Verify] and [parseResponse], path by path *)

Section Runs.
Context `{Runtime}.
Variables (ctx : Context) (reqBody : IAPRequest).

(** The production address does not parse: nothing is sent. *)
Lemma Verify_address_error (result : Iface) (s : State) (e : error) :
  url_Parse_error (Client_ProductionURL (st_client s)) = Some e ->
  Verify ctx reqBody result s = (inl e, s).
Proof.
  intros Ha. go_unfold. go_run. reflexivity.
Qed.

(** The production round trip fails. *)
Lemma Verify_transport_error (result : Iface) (s : State) (e : error) (w : World) :
  url_Parse_error (Client_ProductionURL (st_client s)) = None ->
  http_RoundTrip (Client_httpCli (st_client s))
    (production_request s ctx reqBody) (st_world s) = (inl e, w) ->
  Verify ctx reqBody result s
  = (inl e, after_send s (production_request s ctx reqBody) w).
Proof.
  intros Ha Hrt. go_unfold. go_run. reflexivity.
Qed.

(** The production endpoint answers: the answer goes to [parseResponse],
    and its body is closed afterwards. *)
Lemma Verify_reply (result : Iface) (s : State) (resp : http_Response) (w : World) :
  url_Parse_error (Client_ProductionURL (st_client s)) = None ->
  http_RoundTrip (Client_httpCli (st_client s))
    (production_request s ctx reqBody) (st_world s) = (inr resp, w) ->
  Verify ctx reqBody result s
  = (fst (parseResponse resp result ctx reqBody
            (after_send s (production_request s ctx reqBody) w)),
     Body_Close resp
       (snd (parseResponse resp result ctx reqBody
               (after_send s (production_request s ctx reqBody) w)))).
Proof.
  intros Ha Hrt.
  unfold Verify, bind, try, defer, load_client, http_Client_Do, http_NewRequest,
    production_request, post_request, after_send,
    req_WithContext, req_Header_Set, Header_Set in *.
  go_encode. simpl in *. go_run.
  destruct (parseResponse resp result ctx reqBody _) as [out s1]. reflexivity.
Qed.

(** The body cannot be read. *)
Lemma parseResponse_read_error
    (resp : http_Response) (result : Iface) (s : State) (e : error) :
  ioutil_ReadAll (resp_Body resp) = inl e ->
  parseResponse resp result ctx reqBody s = (inl e, s).
Proof.
  intros Hb. go_unfold. go_run. reflexivity.
Qed.

(** The body does not decode into the target. *)
Lemma parseResponse_target_error
    (resp : http_Response) (result : Iface) (s : State)
    (buf : string) (e : error) (result' : Iface) (m : Mem) :
  ioutil_ReadAll (resp_Body resp) = inr buf ->
  json_Unmarshal buf result (st_mem s) = (Some e, result', m) ->
  parseResponse resp result ctx reqBody s = (inl e, store_mem s m).
Proof.
  intros Hb Ht. go_unfold. go_run. reflexivity.
Qed.

(** The body decodes into the target but not into the status envelope. *)
Lemma parseResponse_status_error
    (resp : http_Response) (result : Iface) (s : State)
    (buf : string) (e : error) (result' : Iface) (m : Mem) (r : StatusResponse) :
  ioutil_ReadAll (resp_Body resp) = inr buf ->
  json_Unmarshal buf result (st_mem s) = (None, result', m) ->
  json_Unmarshal_StatusResponse buf {| Status := 0 |} = (Some e, r) ->
  parseResponse resp result ctx reqBody s = (inl e, store_mem s m).
Proof.
  intros Hb Ht Hs. go_unfold. go_run. reflexivity.
Qed.

(** Both decodings succeed and the fallback condition is false. *)
Lemma parseResponse_stands
    (resp : http_Response) (result : Iface) (s : State)
    (buf : string) (result' : Iface) (m : Mem) (r : StatusResponse) :
  ioutil_ReadAll (resp_Body resp) = inr buf ->
  json_Unmarshal buf result (st_mem s) = (None, result', m) ->
  json_Unmarshal_StatusResponse buf {| Status := 0 |} = (None, r) ->
  fallback_condition s r = false ->
  parseResponse resp result ctx reqBody s = (inr tt, store_mem s m).
Proof.
  intros Hb Ht Hs Hc. go_unfold. go_run. reflexivity.
Qed.

(** The fallback is due and the sandbox address does not parse. *)
Lemma parseResponse_fallback_address_error
    (resp : http_Response) (result : Iface) (s : State)
    (buf : string) (result' : Iface) (m : Mem) (r : StatusResponse) (e : error) :
  ioutil_ReadAll (resp_Body resp) = inr buf ->
  json_Unmarshal buf result (st_mem s) = (None, result', m) ->
  json_Unmarshal_StatusResponse buf {| Status := 0 |} = (None, r) ->
  fallback_condition s r = true ->
  url_Parse_error (Client_SandboxURL (st_client s)) = Some e ->
  parseResponse resp result ctx reqBody s = (inl e, store_mem s m).
Proof.
  intros Hb Ht Hs Hc Ha. go_unfold. go_run. reflexivity.
Qed.

(** The fallback is due and the sandbox round trip fails. *)
Lemma parseResponse_fallback_transport_error
    (resp : http_Response) (result : Iface) (s : State)
    (buf : string) (result' : Iface) (m : Mem) (r : StatusResponse)
    (e : error) (w : World) :
  ioutil_ReadAll (resp_Body resp) = inr buf ->
  json_Unmarshal buf result (st_mem s) = (None, result', m) ->
  json_Unmarshal_StatusResponse buf {| Status := 0 |} = (None, r) ->
  fallback_condition s r = true ->
  url_Parse_error (Client_SandboxURL (st_client s)) = None ->
  http_RoundTrip (Client_httpCli (st_client s))
    (sandbox_request s ctx reqBody) (st_world s) = (inl e, w) ->
  parseResponse resp result ctx reqBody s
  = (inl e, after_send (store_mem s m) (sandbox_request s ctx reqBody) w).
Proof.
  intros Hb Ht Hs Hc Ha Hrt. go_unfold. go_run. reflexivity.
Qed.

(** The fallback is due and the sandbox endpoint answers: its body is
    decoded into what the local [result] holds by then, over the memory the
    production body left, and the decoder's error is the outcome. *)
Lemma parseResponse_fallback_reply
    (resp : http_Response) (result : Iface) (s : State)
    (buf : string) (result' : Iface) (m : Mem) (r : StatusResponse)
    (resp2 : http_Response) (w : World) :
  ioutil_ReadAll (resp_Body resp) = inr buf ->
  json_Unmarshal buf result (st_mem s) = (None, result', m) ->
  json_Unmarshal_StatusResponse buf {| Status := 0 |} = (None, r) ->
  fallback_condition s r = true ->
  url_Parse_error (Client_SandboxURL (st_client s)) = None ->
  http_RoundTrip (Client_httpCli (st_client s))
    (sandbox_request s ctx reqBody) (st_world s) = (inr resp2, w) ->
  parseResponse resp result ctx reqBody s
  = (outcome_of (fst (json_Decoder_Decode (resp_Body resp2) result' m)),
     Body_Close resp2
       (store_mem (after_send (store_mem s m) (sandbox_request s ctx reqBody) w)
          (snd (json_Decoder_Decode (resp_Body resp2) result' m)))).
Proof.
  intros Hb Ht Hs Hc Ha Hrt. go_unfold. go_run.
  destruct (json_Decoder_Decode (resp_Body resp2) result' m) as [[e |] m2];
    reflexivity.
Qed.

End Runs.

(** *** The fallback condition *)

Lemma fallback_condition_true `{Runtime} (s : State) (r : StatusResponse) :
  fallback_condition s r = true <->
  Client_IsProduct (st_client s) = false /\ Status r = 21007.
Proof.
  unfold fallback_condition.
  rewrite andb_true_iff, Z.eqb_eq.
  destruct (Client_IsProduct (st_client s)); simpl; intuition congruence.
Qed.

Lemma fallback_condition_false `{Runtime} (s : State) (r : StatusResponse) :
  fallback_condition s r = false <->
  ~ (Client_IsProduct (st_client s) = false /\ Status r = 21007).
Proof.
  rewrite <- fallback_condition_true.
  destruct (fallback_condition s r); intuition congruence.
Qed.

Lemma fallback_condition_after_send `{Runtime}
    (s : State) (req : http_Request Context) (w : World) (r : StatusResponse) :
  fallback_condition (after_send s req w) r = fallback_condition s r.
Proof. reflexivity. Qed.

(** *** Calls whose production reply decodes *)

Section Replies.
Context `{Runtime}.
Variables (ctx : Context) (reqBody : IAPRequest) (result : Iface) (s : State).
Variables (resp : http_Response) (w : World) (buf : string).
Variables (result' : Iface) (m : Mem) (r : StatusResponse).
Hypothesis Hreply : ProductionReply s ctx reqBody result resp w buf result' m r.

(** Without the fallback the production result stands. *)
Lemma Verify_stands :
  fallback_condition s r = false ->
  Verify ctx reqBody result s
  = (inr tt,
     Body_Close resp
       (store_mem (after_send s (production_request s ctx reqBody) w) m)).
Proof.
  intros Hc. destruct Hreply as [Ha Hrt Hb Ht Hs].
  rewrite (Verify_reply ctx reqBody result s resp w Ha Hrt).
  rewrite (parseResponse_stands ctx reqBody resp result _ buf result' m r);
    auto.
Qed.

(** The fallback is due but the sandbox address does not parse. *)
Lemma Verify_fallback_address_error (e : error) :
  fallback_condition s r = true ->
  url_Parse_error (Client_SandboxURL (st_client s)) = Some e ->
  Verify ctx reqBody result s
  = (inl e,
     Body_Close resp
       (store_mem (after_send s (production_request s ctx reqBody) w) m)).
Proof.
  intros Hc Ha2. destruct Hreply as [Ha Hrt Hb Ht Hs].
  rewrite (Verify_reply ctx reqBody result s resp w Ha Hrt).
  rewrite (parseResponse_fallback_address_error
             ctx reqBody resp result _ buf result' m r e); auto.
Qed.

(** The fallback is due but the sandbox round trip fails. *)
Lemma Verify_fallback_transport_error (e : error) (w2 : World) :
  fallback_condition s r = true ->
  url_Parse_error (Client_SandboxURL (st_client s)) = None ->
  http_RoundTrip (Client_httpCli (st_client s))
    (sandbox_request s ctx reqBody) w = (inl e, w2) ->
  Verify ctx reqBody result s
  = (inl e,
     Body_Close resp
       (after_send
          (store_mem (after_send s (production_request s ctx reqBody) w) m)
          (sandbox_request s ctx reqBody) w2)).
Proof.
  intros Hc Ha2 Hrt2. destruct Hreply as [Ha Hrt Hb Ht Hs].
  rewrite (Verify_reply ctx reqBody result s resp w Ha Hrt).
  rewrite (parseResponse_fallback_transport_error
             ctx reqBody resp result _ buf result' m r e w2); auto.
Qed.

(** The fallback is due and the sandbox endpoint answers. *)
Lemma Verify_fallback_reply (resp2 : http_Response) (w2 : World) :
  fallback_condition s r = true ->
  url_Parse_error (Client_SandboxURL (st_client s)) = None ->
  http_RoundTrip (Client_httpCli (st_client s))
    (sandbox_request s ctx reqBody) w = (inr resp2, w2) ->
  Verify ctx reqBody result s
  = (outcome_of (fst (json_Decoder_Decode (resp_Body resp2) result' m)),
     Body_Close resp
       (Body_Close resp2
          (store_mem
             (after_send
                (store_mem (after_send s (production_request s ctx reqBody) w) m)
                (sandbox_request s ctx reqBody) w2)
             (snd (json_Decoder_Decode (resp_Body resp2) result' m))))).
Proof.
  intros Hc Ha2 Hrt2. destruct Hreply as [Ha Hrt Hb Ht Hs].
  rewrite (Verify_reply ctx reqBody result s resp w Ha Hrt).
  rewrite (parseResponse_fallback_reply
             ctx reqBody resp result _ buf result' m r resp2 w2); auto.
Qed.

End Replies.

(** *** The claims about [Verify] *)

(** C2. A production-configured client that receives status 21007 from
    production sends nothing else: the call returns nil, the production
    request is the only one sent, and the target holds what the production
    body decoded to. *)
Theorem production_client_never_falls_back `{Runtime}
    (ctx : Context) (reqBody : IAPRequest) (result : Iface) (s : State)
    (resp : http_Response) (w : World) (buf : string)
    (result' : Iface) (m : Mem) (r : StatusResponse) :
  ProductionReply s ctx reqBody result resp w buf result' m r ->
  Client_IsProduct (st_client s) = true ->
  Status r = 21007 ->
  let out := Verify ctx reqBody result s in
  returned (fst out) = None /\
  st_sent (snd out) = (st_sent s ++ [production_request s ctx reqBody])%list /\
  st_mem (snd out) = m /\
  st_world (snd out) = w.
Proof.
  intros Hreply Hp Hst out. subst out.
  rewrite (Verify_stands ctx reqBody result s resp w buf result' m r Hreply).
  - repeat split.
  - apply fallback_condition_false. intros [Hf _]. congruence.
Qed.

(** C5. When the reply decodes and the fallback condition does not hold,
    [Verify] returns nil whatever the status is, zero or not; the target
    holds the decoded reply and nothing else is sent. *)
Theorem nonzero_status_is_not_an_error `{Runtime}
    (ctx : Context) (reqBody : IAPRequest) (result : Iface) (s : State)
    (resp : http_Response) (w : World) (buf : string)
    (result' : Iface) (m : Mem) (r : StatusResponse) :
  ProductionReply s ctx reqBody result resp w buf result' m r ->
  ~ (Client_IsProduct (st_client s) = false /\ Status r = 21007) ->
  let out := Verify ctx reqBody result s in
  returned (fst out) = None /\
  st_mem (snd out) = m /\
  st_sent (snd out) = (st_sent s ++ [production_request s ctx reqBody])%list.
Proof.
  intros Hreply Hc out. subst out.
  rewrite (Verify_stands ctx reqBody result s resp w buf result' m r Hreply).
  - repeat split.
  - apply fallback_condition_false. exact Hc.
Qed.

(** C6, as amended. When a decoder reports an error, [json.Unmarshal] for
    the production body (into the target or into the status envelope) or
    the stream decoder for the sandbox body of the fallback, [Verify]
    returns that error and the target is as the decoders left it. *)
Theorem decode_error_is_returned `{Runtime}
    (ctx : Context) (reqBody : IAPRequest) (result : Iface) (s : State)
    (e : error) (m : Mem) :
  DecodeFails s ctx reqBody result e m ->
  let out := Verify ctx reqBody result s in
  returned (fst out) = Some e /\ st_mem (snd out) = m.
Proof.
  intros Hfail out. subst out.
  destruct Hfail as
    [ resp w buf e result' m Ha Hrt Hb Ht
    | resp w buf e result' m r Ha Hrt Hb Ht Hs
    | resp w buf result' m r resp2 w2 e m2 Hreply Hp Hst Ha2 Hrt2 Hd ].
  - rewrite (Verify_reply ctx reqBody result s resp w Ha Hrt).
    rewrite (parseResponse_target_error ctx reqBody resp result _ buf e result' m);
      auto.
  - rewrite (Verify_reply ctx reqBody result s resp w Ha Hrt).
    rewrite (parseResponse_status_error ctx reqBody resp result _ buf e result' m r);
      auto.
  - assert (Hc : fallback_condition s r = true)
      by (apply fallback_condition_true; auto).
    rewrite (Verify_fallback_reply ctx reqBody result s resp w buf result' m r
               Hreply resp2 w2 Hc Ha2 Hrt2).
    rewrite Hd. simpl. auto.
Qed.

(** C7. A request that cannot be built is not sent and not retried, and
    the error of building it is what [Verify] returns: for the production
    request the state is untouched; for the sandbox request of the fallback
    the production request stays the only one sent. Encoding the payload
    never fails, so the address is the only thing that can. *)
Theorem construction_error_is_returned `{Runtime}
    (ctx : Context) (reqBody : IAPRequest) (result : Iface) (s : State)
    (e : error) :
  snd (json_Encoder_Encode bytes_Buffer_new reqBody) = None /\
  (url_Parse_error (Client_ProductionURL (st_client s)) = Some e ->
   Verify ctx reqBody result s = (inl e, s)) /\
  (forall resp w buf result' m r,
     ProductionReply s ctx reqBody result resp w buf result' m r ->
     Client_IsProduct (st_client s) = false ->
     Status r = 21007 ->
     url_Parse_error (Client_SandboxURL (st_client s)) = Some e ->
     let out := Verify ctx reqBody result s in
     returned (fst out) = Some e /\
     st_sent (snd out) = (st_sent s ++ [production_request s ctx reqBody])%list /\
     st_mem (snd out) = m /\
     st_world (snd out) = w).
Proof.
  split; [reflexivity |]. split.
  - apply Verify_address_error.
  - intros resp w buf result' m r Hreply Hp Hst Ha2 out. subst out.
    rewrite (Verify_fallback_address_error
               ctx reqBody result s resp w buf result' m r Hreply e).
    + repeat split.
    + apply fallback_condition_true; auto.
    + exact Ha2.
Qed.

(** C4. A call sends at most two requests, the production one and then at
    most one to the sandbox; and when the sandbox answers the fallback, its
    body goes to the decoder and nowhere else: even if it carries status
    21007 itself, exactly those two requests have been sent and the
    decoder's verdict is the outcome. *)
Theorem at_most_one_fallback `{Runtime}
    (ctx : Context) (reqBody : IAPRequest) (result : Iface) (s : State) :
  let out := Verify ctx reqBody result s in
  (exists n : nat,
     (n <= 2)%nat /\
     st_sent (snd out)
     = (st_sent s
        ++ firstn n [production_request s ctx reqBody;
                     sandbox_request s ctx reqBody])%list) /\
  (forall resp w buf result' m r resp2 w2 buf2 r2,
     ProductionReply s ctx reqBody result resp w buf result' m r ->
     Client_IsProduct (st_client s) = false ->
     Status r = 21007 ->
     url_Parse_error (Client_SandboxURL (st_client s)) = None ->
     http_RoundTrip (Client_httpCli (st_client s))
       (sandbox_request s ctx reqBody) w = (inr resp2, w2) ->
     ioutil_ReadAll (resp_Body resp2) = inr buf2 ->
     json_Unmarshal_StatusResponse buf2 {| Status := 0 |} = (None, r2) ->
     Status r2 = 21007 ->
     st_sent (snd out)
     = (st_sent s ++ [production_request s ctx reqBody;
                      sandbox_request s ctx reqBody])%list /\
     st_world (snd out) = w2 /\
     fst out = outcome_of (fst (json_Decoder_Decode (resp_Body resp2) result' m)) /\
     st_mem (snd out) = snd (json_Decoder_Decode (resp_Body resp2) result' m)).
Proof.
  intros out. subst out. split.
  - go_unfold. go_cases;
      first
        [ exists 0%nat; split; [lia | simpl; rewrite app_nil_r; reflexivity ]
        | exists 1%nat; split; [lia | reflexivity ]
        | exists 2%nat; split; [lia | simpl; rewrite <- app_assoc; reflexivity ] ].
  - intros resp w buf result' m r resp2 w2 buf2 r2
      Hreply Hp Hst Ha2 Hrt2 _ _ _.
    assert (Hc : fallback_condition s r = true)
      by (apply fallback_condition_true; auto).
    rewrite (Verify_fallback_reply ctx reqBody result s resp w buf result' m r
               Hreply resp2 w2 Hc Ha2 Hrt2).
    simpl. rewrite <- app_assoc. repeat split.
Qed.

(** C1, as amended. For a client with [IsProduct = false] whose production
    reply decodes without error into the target and into the status
    envelope, the latter with status 21007, and whose sandbox address
    parses: the call sends exactly two requests, the production one and
    then one POST to the client's sandbox address with the same encoded
    body; and when the sandbox endpoint answers, the call returns what the
    stream decoder returns for its body, and the target is what that
    decoder leaves of the target as the production body left it. *)
Theorem sandbox_fallback `{Runtime}
    (ctx : Context) (reqBody : IAPRequest) (result : Iface) (s : State)
    (resp : http_Response) (w : World) (buf : string)
    (result' : Iface) (m : Mem) (r : StatusResponse) :
  ProductionReply s ctx reqBody result resp w buf result' m r ->
  Client_IsProduct (st_client s) = false ->
  Status r = 21007 ->
  url_Parse_error (Client_SandboxURL (st_client s)) = None ->
  let out := Verify ctx reqBody result s in
  let req1 := production_request s ctx reqBody in
  let req2 := sandbox_request s ctx reqBody in
  st_sent (snd out) = (st_sent s ++ [req1; req2])%list /\
  req_Method req2 = "POST" /\
  req_URL req2 = Client_SandboxURL (st_client s) /\
  req_Body req2 = req_Body req1 /\
  req_Body req2 = fst (json_Encoder_Encode bytes_Buffer_new reqBody) /\
  (forall resp2 w2,
     http_RoundTrip (Client_httpCli (st_client s)) req2 w = (inr resp2, w2) ->
     fst out = outcome_of (fst (json_Decoder_Decode (resp_Body resp2) result' m)) /\
     st_mem (snd out) = snd (json_Decoder_Decode (resp_Body resp2) result' m)).
Proof.
  intros Hreply Hp Hst Ha2 out req1 req2. subst out req1 req2.
  assert (Hc : fallback_condition s r = true)
    by (apply fallback_condition_true; auto).
  destruct (http_RoundTrip (Client_httpCli (st_client s))
              (sandbox_request s ctx reqBody) w) as [[e | resp2] w2] eqn:Hrt2.
  - rewrite (Verify_fallback_transport_error
               ctx reqBody result s resp w buf result' m r Hreply e w2 Hc Ha2 Hrt2).
    simpl. rewrite <- app_assoc.
    repeat (split; [reflexivity |]). intros resp2 w2' [=].
  - rewrite (Verify_fallback_reply
               ctx reqBody result s resp w buf result' m r Hreply resp2 w2 Hc Ha2 Hrt2).
    simpl. rewrite <- app_assoc.
    repeat (split; [reflexivity |]). intros resp2' w2' [= <- <-].
    split; reflexivity.
Qed.

(** C10, as amended. In the fallback the sandbox body is decoded into the
    memory the production body left, which is not reset in between. So,
    for a target that the decoder fills in place (whatever way of reading
    fields and of telling which fields a body mentions is such that the
    stream decoder leaves unmentioned fields as they are), a field the
    sandbox body does not mention keeps the value the production body gave
    it. *)
Theorem fallback_keeps_production_fields `{Runtime} {Field Val : Type}
    (field_value : Mem -> Field -> Val)
    (mentioned : io_ReadCloser -> Field -> bool)
    (ctx : Context) (reqBody : IAPRequest) (result : Iface) (s : State)
    (resp : http_Response) (w : World) (buf : string)
    (result' : Iface) (m : Mem) (r : StatusResponse)
    (resp2 : http_Response) (w2 : World) :
  (forall body res mem f,
     mentioned body f = false ->
     field_value (snd (json_Decoder_Decode body res mem)) f = field_value mem f) ->
  ProductionReply s ctx reqBody result resp w buf result' m r ->
  Client_IsProduct (st_client s) = false ->
  Status r = 21007 ->
  url_Parse_error (Client_SandboxURL (st_client s)) = None ->
  http_RoundTrip (Client_httpCli (st_client s))
    (sandbox_request s ctx reqBody) w = (inr resp2, w2) ->
  let out := Verify ctx reqBody result s in
  st_mem (snd out) = snd (json_Decoder_Decode (resp_Body resp2) result' m) /\
  (forall f,
     mentioned (resp_Body resp2) f = false ->
     field_value (st_mem (snd out)) f = field_value m f).
Proof.
  intros Hframe Hreply Hp Hst Ha2 Hrt2 out. subst out.
  assert (Hc : fallback_condition s r = true)
    by (apply fallback_condition_true; auto).
  rewrite (Verify_fallback_reply
             ctx reqBody result s resp w buf result' m r Hreply resp2 w2 Hc Ha2 Hrt2).
  simpl. split; [reflexivity |].
  intros f Hf. apply Hframe. exact Hf.
Qed.

(** ** The code at work in [TestEnv] *)

Import TestEnv.

(** Storing into one field leaves the others. *)
Lemma store_other (m : Summary) (g f : field) (v : jvalue) :
  field_eqb g f = false -> read (fst (store m g v)) f = read m f.
Proof.
  destruct g, f, v; simpl; try discriminate; try reflexivity;
    intros _; destruct (fits_int n); reflexivity.
Qed.

Lemma store_members_frame (f : field) (ms : list (string * jvalue)) :
  forall (m : Summary) (err : option error),
    existsb (names f) ms = false ->
    read (snd (store_members ms m err)) f = read m f.
Proof.
  induction ms as [| [key v] ms IH]; intros m err Hms; simpl in *.
  - reflexivity.
  - apply orb_false_iff in Hms. destruct Hms as [Hkey Hrest].
    unfold names in Hkey. simpl in Hkey.
    destruct (field_of_key key) as [g |].
    + destruct (store m g v) as [m' ok] eqn:Hstore.
      rewrite IH by exact Hrest.
      change m' with (fst (m', ok)). rewrite <- Hstore.
      apply store_other. exact Hkey.
    + apply IH. exact Hrest.
Qed.

(** The decoder of [TestEnv] leaves alone the fields a body does not
    mention. *)
Lemma decode_frame (body : io_ReadCloser) (res : iface) (m : Summary) (f : field) :
  mentions body f = false ->
  read (snd (decode body res m)) f = read m f.
Proof.
  unfold mentions, decode.
  destruct (scan_value (stream_data body)) as [[[ms |] rest] |].
  - intros Hms. destruct res; simpl; try reflexivity.
    apply store_members_frame. exact Hms.
  - intros _. destruct res; reflexivity.
  - intros _. destruct (stream_err body); reflexivity.
Qed.

(** The specification's example: a sandbox receipt sent through a client
    that is not production-only ends with the sandbox reply in the target,
    after two requests with the same body. *)
Lemma sandbox_fallback_witness :
  let s := start (New false) (stores "21007") in
  let out := Verify 7%nat receipt ToSummary s in
  let req1 := production_request s 7%nat receipt in
  let req2 := sandbox_request s 7%nat receipt in
  st_sent (snd out) = [req1; req2] /\
  req_Method req2 = "POST" /\
  req_URL req2 = SandboxURL /\
  req_Body req2 = req_Body req1 /\
  req_Body req2 = fst (json_Encoder_Encode bytes_Buffer_new receipt) /\
  fst out = inr tt /\
  st_mem (snd out) = summary 0 "Sandbox".
Proof.
  pose proof
    (sandbox_fallback (H := runtime) 7%nat receipt ToSummary
       (start (New false) (stores "21007"))
       (response (js "{'status':21007,'environment':'Production'}"))
       (stores "21007")
       (js "{'status':21007,'environment':'Production'}")
       ToSummary (summary 21007 "Production") {| Status := 21007 |})
    as Hrun.
  destruct Hrun as (Hsent & Hmethod & Haddress & Hsame & Hbody & Hdecoded).
  - split; reflexivity.
  - reflexivity.
  - reflexivity.
  - reflexivity.
  - destruct (Hdecoded (response (js "{'status':0,'environment':'Sandbox'}"))
                (stores "21007") eq_refl) as [Hout Hmem].
    repeat split; assumption.
Defined.

(** A production-only client keeps the production reply of status 21007. *)
Lemma production_client_never_falls_back_witness :
  let s := start (New true) (stores "21007") in
  let out := Verify 7%nat receipt ToSummary s in
  returned (fst out) = None /\
  st_sent (snd out) = [production_request s 7%nat receipt] /\
  st_mem (snd out) = summary 21007 "Production" /\
  st_world (snd out) = stores "21007".
Proof.
  apply (production_client_never_falls_back (H := runtime) 7%nat receipt ToSummary
           (start (New true) (stores "21007"))
           (response (js "{'status':21007,'environment':'Production'}"))
           (stores "21007")
           (js "{'status':21007,'environment':'Production'}")
           ToSummary (summary 21007 "Production") {| Status := 21007 |}).
  - split; reflexivity.
  - reflexivity.
  - reflexivity.
Defined.

(** Status 21002 comes back as a decoded reply, not as an error. *)
Lemma nonzero_status_is_not_an_error_witness :
  let s := start (New false) (stores "21002") in
  let out := Verify 7%nat receipt ToSummary s in
  returned (fst out) = None /\
  st_mem (snd out) = summary 21002 "Production" /\
  st_sent (snd out) = [production_request s 7%nat receipt].
Proof.
  apply (nonzero_status_is_not_an_error (H := runtime) 7%nat receipt ToSummary
           (start (New false) (stores "21002"))
           (response (js "{'status':21002,'environment':'Production'}"))
           (stores "21002")
           (js "{'status':21002,'environment':'Production'}")
           ToSummary (summary 21002 "Production") {| Status := 21002 |}).
  - split; reflexivity.
  - simpl. intros [_ Hst]. discriminate Hst.
Defined.

(** A page that is not JSON is refused with the decoder's syntax error and
    the target stays empty. *)
Lemma decode_error_is_returned_witness :
  let out := Verify 7%nat receipt ToSummary (start (New false) broken_stores) in
  returned (fst out) = Some syntax_error /\ st_mem (snd out) = empty_summary.
Proof.
  apply (decode_error_is_returned (H := runtime) 7%nat receipt ToSummary
           (start (New false) broken_stores) syntax_error empty_summary).
  apply (target_rejected (H := runtime) _ _ _ _
           (response "<html>Service Unavailable</html>") broken_stores
           "<html>Service Unavailable</html>" syntax_error ToSummary empty_summary);
    reflexivity.
Defined.

(** An address that does not parse stops the call before anything is sent,
    at the first request and at the second. *)
Lemma construction_error_is_returned_witness :
  Verify 7%nat receipt ToSummary (start unaddressed (stores "0"))
  = (inl (errors_New "parse: net/url: invalid control character in URL"),
     start unaddressed (stores "0")) /\
  (let s := start misconfigured (stores "21007") in
   let out := Verify 7%nat receipt ToSummary s in
   returned (fst out) = Some (errors_New "parse: missing protocol scheme") /\
   st_sent (snd out) = [production_request s 7%nat receipt] /\
   st_mem (snd out) = summary 21007 "Production" /\
   st_world (snd out) = stores "21007").
Proof.
  split.
  - apply (proj1 (proj2 (construction_error_is_returned (H := runtime) 7%nat receipt ToSummary
                           (start unaddressed (stores "0"))
                           (errors_New "parse: net/url: invalid control character in URL")))).
    reflexivity.
  - apply (proj2 (proj2 (construction_error_is_returned (H := runtime) 7%nat receipt ToSummary
                           (start misconfigured (stores "21007"))
                           (errors_New "parse: missing protocol scheme")))
             (response (js "{'status':21007,'environment':'Production'}"))
             (stores "21007")
             (js "{'status':21007,'environment':'Production'}")
             ToSummary (summary 21007 "Production") {| Status := 21007 |}).
    + split; reflexivity.
    + reflexivity.
    + reflexivity.
    + reflexivity.
Defined.

(** A sandbox that answers 21007 itself is not asked again: two requests,
    and its reply is the result. *)
Lemma at_most_one_fallback_witness :
  let s := start (New false) stubborn_stores in
  let out := Verify 7%nat receipt ToSummary s in
  st_sent (snd out)
  = [production_request s 7%nat receipt; sandbox_request s 7%nat receipt] /\
  st_world (snd out) = stubborn_stores /\
  fst out = inr tt /\
  st_mem (snd out) = summary 21007 "Sandbox".
Proof.
  apply (proj2 (at_most_one_fallback (H := runtime) 7%nat receipt ToSummary
                  (start (New false) stubborn_stores))
           (response (js "{'status':21007}")) stubborn_stores
           (js "{'status':21007}") ToSummary (summary 21007 EmptyString)
           {| Status := 21007 |}
           (response (js "{'status':21007,'environment':'Sandbox'}"))
           stubborn_stores
           (js "{'status':21007,'environment':'Sandbox'}")
           {| Status := 21007 |}).
  - split; reflexivity.
  - reflexivity.
  - reflexivity.
  - reflexivity.
  - reflexivity.
  - reflexivity.
  - reflexivity.
  - reflexivity.
Defined.

(** The sandbox reply has no [environment]: the target keeps the one the
    production reply gave, next to the sandbox status. *)
Lemma fallback_keeps_production_fields_witness :
  let out := Verify 7%nat receipt ToSummary (start (New false) terse_stores) in
  st_mem (snd out) = summary 0 "Production" /\
  read (st_mem (snd out)) FEnvironment = JStr "Production".
Proof.
  destruct (fallback_keeps_production_fields (H := runtime) read mentions
              7%nat receipt ToSummary (start (New false) terse_stores)
              (response (js "{'status':21007,'environment':'Production'}"))
              terse_stores
              (js "{'status':21007,'environment':'Production'}")
              ToSummary (summary 21007 "Production") {| Status := 21007 |}
              (response (js "{'status':0}")) terse_stores)
    as [Hmem Hkept].
  - exact decode_frame.
  - split; reflexivity.
  - reflexivity.
  - reflexivity.
  - reflexivity.
  - reflexivity.
  - split.
    + exact Hmem.
    + exact (Hkept FEnvironment eq_refl).
Defined.

(** C1 as it is worded fails in four ways. With a sandbox address that
    does not parse, a production reply of status 21007 is followed by no
    second request. With a sandbox that cannot be reached, the second
    request is sent but the target holds the production reply. When the
    sandbox answers, fields its body leaves out keep their production
    values: the target is not what the sandbox body alone decodes to. And
    a production body that decodes to a status envelope of 21007 but does
    not fit the target ends the call before any second request. *)
Lemma sandbox_fallback_counterexample :
  (let s := start misconfigured (stores "21007") in
   let out := Verify 7%nat receipt ToSummary s in
   ProductionReply s 7%nat receipt ToSummary
     (response (js "{'status':21007,'environment':'Production'}"))
     (stores "21007") (js "{'status':21007,'environment':'Production'}")
     ToSummary (summary 21007 "Production") {| Status := 21007 |} /\
   Client_IsProduct (st_client s) = false /\
   st_sent (snd out) = [production_request s 7%nat receipt] /\
   fst out = inl (errors_New "parse: missing protocol scheme") /\
   ~ fallback_as_worded s 7%nat receipt ToSummary) /\
  (let s := start (New false) production_only in
   let out := Verify 7%nat receipt ToSummary s in
   st_sent (snd out)
   = [production_request s 7%nat receipt; sandbox_request s 7%nat receipt] /\
   fst out = inl (errors_New "dial tcp: no such host") /\
   st_mem (snd out) = summary 21007 "Production" /\
   ~ fallback_as_worded s 7%nat receipt ToSummary) /\
  (let s := start (New false) terse_stores in
   let out := Verify 7%nat receipt ToSummary s in
   fst out = inr tt /\
   st_mem (snd out) = summary 0 "Production" /\
   snd (decode (resp_Body (response (js "{'status':0}"))) ToSummary (st_mem s))
   = summary 0 EmptyString /\
   ~ fallback_as_worded s 7%nat receipt ToSummary) /\
  (let s := start (New false) Runs.mistyped in
   let out := Verify 7%nat receipt ToSummary s in
   answer Runs.mistyped ProductionURL
   = reply (js "{'status':21007,'environment':5}") /\
   unmarshal_status (js "{'status':21007,'environment':5}") {| Status := 0 |}
   = (None, {| Status := 21007 |}) /\
   Client_IsProduct (st_client s) = false /\
   st_sent (snd out) = [production_request s 7%nat receipt] /\
   fst out = inl type_error).
Proof.
  assert (Hreply : forall c w,
            Client_ProductionURL c = ProductionURL ->
            answer w ProductionURL
            = reply (js "{'status':21007,'environment':'Production'}") ->
            ProductionReply (start c w) 7%nat receipt ToSummary
              (response (js "{'status':21007,'environment':'Production'}"))
              w (js "{'status':21007,'environment':'Production'}")
              ToSummary (summary 21007 "Production") {| Status := 21007 |}).
  { intros c w Hc Hw. split; simpl.
    - rewrite Hc. reflexivity.
    - unfold round_trip. simpl. rewrite Hc, Hw. reflexivity.
    - reflexivity.
    - reflexivity.
    - reflexivity. }
  split; [| split; [| split]]; cbv zeta.
  - split; [apply Hreply; reflexivity |].
    repeat (split; [reflexivity |]).
    intros Hworded.
    destruct (Hworded _ _ _ _ _ _ (Hreply misconfigured (stores "21007") eq_refl eq_refl)
                eq_refl eq_refl) as [Hsent _].
    discriminate Hsent.
  - repeat (split; [reflexivity |]).
    intros Hworded.
    destruct (Hworded _ _ _ _ _ _ (Hreply (New false) production_only eq_refl eq_refl)
                eq_refl eq_refl) as [_ (resp2 & w2 & Hrt & _)].
    discriminate Hrt.
  - repeat (split; [reflexivity |]).
    intros Hworded.
    destruct (Hworded _ _ _ _ _ _ (Hreply (New false) terse_stores eq_refl eq_refl)
                eq_refl eq_refl) as [_ (resp2 & w2 & Hrt & Hmem)].
    injection Hrt as <- <-. discriminate Hmem.
  - repeat split.
Qed.

(** *** More runs *)

(** A production-only client and a receipt that production accepts: one
    request, and the target is the production reply. *)
Example production_accepts :
  let s := start (New true) (stores "0") in
  let out := Verify 7%nat receipt ToSummary s in
  fst out = inr tt /\
  st_sent (snd out) = [production_request s 7%nat receipt] /\
  st_mem (snd out) = summary 0 "Production".
Proof. repeat split. Qed.

(** The request of the example on the wire. *)
Example receipt_on_the_wire :
  req_Body (production_request (start (New false) (stores "0")) 7%nat receipt)
  = js "{'receipt-data':'abc123','exclude-old-transactions':false}"
    ++ String "010"%char EmptyString.
Proof. reflexivity. Qed.

(** A [result] that holds no pointer: the first decoding rebinds the local
    variable, the fallback is still taken, and the decoder then refuses the
    target. The caller's memory is never written. *)
Example result_without_pointer :
  let s := start (New false) (stores "21007") in
  let out := Verify 7%nat receipt NilIface s in
  fst out = inl invalid_unmarshal_error /\
  List.length (st_sent (snd out)) = 2%nat /\
  st_mem (snd out) = empty_summary.
Proof. repeat split. Qed.

(** A status that is not a number: the target decoding stores the other
    fields and reports the mismatch. *)
Example status_of_the_wrong_kind :
  let w := [(ProductionURL, reply (js "{'status':'down','environment':'Production'}"))] in
  let out := Verify 7%nat receipt ToSummary (start (New true) w) in
  fst out = inl type_error /\
  st_mem (snd out) = summary 0 "Production".
Proof. repeat split. Qed.

(** The body [null] decodes to nothing: status 0, no fallback. *)
Example null_reply :
  let w := [(ProductionURL, reply "null")] in
  let out := Verify 7%nat receipt ToSummary (start (New false) w) in
  fst out = inr tt /\
  List.length (st_sent (snd out)) = 1%nat /\
  st_mem (snd out) = empty_summary.
Proof. repeat split. Qed.

(** Both bodies are closed, the sandbox one first. *)
Example bodies_are_closed :
  let out := Verify 7%nat receipt ToSummary (start (New false) (stores "21007")) in
  st_closed (snd out)
  = [resp_Body (response (js "{'status':0,'environment':'Sandbox'}"));
     resp_Body (response (js "{'status':21007,'environment':'Production'}"))].
Proof. reflexivity. Qed.

(** Codes next to the documented ones are unknown errors. *)
Example HandleError_21006 :
  HandleError 21006 = Some (errors_New "An unknown error occurred").
Proof. reflexivity. Qed.

Example HandleError_21200 :
  HandleError 21200 = Some (errors_New "An unknown error occurred").
Proof. reflexivity. Qed.

Example HandleError_negative :
  HandleError (-1) = Some (errors_New "An unknown error occurred").
Proof. reflexivity. Qed.

(** Bytes after the value: [json.Unmarshal] refuses the production body,
    while the stream decoder of the fallback reads one value from the
    sandbox body and stops. *)
Example bytes_after_the_value :
  (let w := [(ProductionURL, reply (js "{'status':0} and more"))] in
   fst (Verify 7%nat receipt ToSummary (start (New false) w)) = inl syntax_error) /\
  (let w := [(ProductionURL, reply (js "{'status':21007}"));
             (SandboxURL, reply (js "{'status':0} and more"))] in
   let out := Verify 7%nat receipt ToSummary (start (New false) w) in
   fst out = inr tt /\ st_mem (snd out) = summary 0 EmptyString).
Proof. repeat split. Qed.

(** ** Every call takes one of the paths *)

Lemma Verify_run `{Runtime}
    (ctx : Context) (reqBody : IAPRequest) (result : Iface) (s : State) :
  Run s ctx reqBody result
    (fst (Verify ctx reqBody result s)) (snd (Verify ctx reqBody result s)).
Proof.
  destruct (url_Parse_error (Client_ProductionURL (st_client s)))
    as [e |] eqn:Ha.
  { rewrite (Verify_address_error ctx reqBody result s e Ha).
    apply run_address_error. exact Ha. }
  destruct (http_RoundTrip (Client_httpCli (st_client s))
              (production_request s ctx reqBody) (st_world s))
    as [[e | resp] w] eqn:Hrt.
  { rewrite (Verify_transport_error ctx reqBody result s e w Ha Hrt).
    apply run_transport_error; assumption. }
  destruct (ioutil_ReadAll (resp_Body resp)) as [e | buf] eqn:Hb.
  { rewrite (Verify_reply ctx reqBody result s resp w Ha Hrt).
    rewrite (parseResponse_read_error ctx reqBody resp result
               (after_send s (production_request s ctx reqBody) w) e Hb).
    apply run_read_error; assumption. }
  destruct (json_Unmarshal buf result (st_mem s)) as [[[e |] result'] m] eqn:Ht.
  { rewrite (Verify_reply ctx reqBody result s resp w Ha Hrt).
    rewrite (parseResponse_target_error ctx reqBody resp result
               (after_send s (production_request s ctx reqBody) w) buf e result' m Hb Ht).
    eapply run_target_error; eassumption. }
  destruct (json_Unmarshal_StatusResponse buf {| Status := 0 |})
    as [[e |] r] eqn:Hs.
  { rewrite (Verify_reply ctx reqBody result s resp w Ha Hrt).
    rewrite (parseResponse_status_error ctx reqBody resp result
               (after_send s (production_request s ctx reqBody) w) buf e result' m r Hb Ht Hs).
    eapply run_envelope_error; eassumption. }
  assert (Hreply : ProductionReply s ctx reqBody result resp w buf result' m r)
    by (split; assumption).
  destruct (fallback_condition s r) eqn:Hc.
  - destruct (url_Parse_error (Client_SandboxURL (st_client s)))
      as [e |] eqn:Ha2.
    { rewrite (Verify_fallback_address_error
                 ctx reqBody result s resp w buf result' m r Hreply e Hc Ha2).
      eapply run_fallback_address_error; eassumption. }
    destruct (http_RoundTrip (Client_httpCli (st_client s))
                (sandbox_request s ctx reqBody) w)
      as [[e | resp2] w2] eqn:Hrt2.
    + rewrite (Verify_fallback_transport_error
                 ctx reqBody result s resp w buf result' m r Hreply e w2 Hc Ha2 Hrt2).
      eapply run_fallback_transport_error; eassumption.
    + rewrite (Verify_fallback_reply
                 ctx reqBody result s resp w buf result' m r Hreply resp2 w2 Hc Ha2 Hrt2).
      eapply run_fallback_reply; eassumption.
  - rewrite (Verify_stands ctx reqBody result s resp w buf result' m r Hreply Hc).
    eapply run_stands; eassumption.
Qed.

(** The requests of a call are the production request and then the
    sandbox request, or a beginning of that. *)
Lemma Run_sent `{Runtime}
    (ctx : Context) (reqBody : IAPRequest) (result : Iface) (s s' : State)
    (out : error + unit) :
  Run s ctx reqBody result out s' ->
  exists n : nat,
    (n <= 2)%nat /\
    st_sent s'
    = (st_sent s ++ firstn n [production_request s ctx reqBody;
                              sandbox_request s ctx reqBody])%list.
Proof.
  intros Hrun. destruct Hrun; simpl;
    first
      [ exists 0%nat; split; [lia | simpl; rewrite app_nil_r; reflexivity ]
      | exists 1%nat; split; [lia | reflexivity ]
      | exists 2%nat; split; [lia | simpl; rewrite <- app_assoc; reflexivity ] ].
Qed.

(** ** Further properties of [Verify] and [parseResponse] *)

(** Looks at the path a call took. *)
Ltac run_cases ctx reqBody result s :=
  let o := fresh "o" in
  let s' := fresh "s'" in
  let E := fresh "E" in
  let Hrun := fresh "Hrun" in
  pose proof (Verify_run ctx reqBody result s) as Hrun;
  destruct (Verify ctx reqBody result s) as [o s'] eqn:E;
  simpl in Hrun |- *;
  destruct Hrun.

(** Two facts about the same library call agree. *)
Ltac same_call :=
  repeat match goal with
         | E1 : ?x = _, E2 : ?x = _ |- _ =>
             rewrite E1 in E2; first [ discriminate E2 | injection E2 as; subst ]
         end.

(** X1. When the production round trip fails, [Verify] returns the
    transport's error. That one request is the only one made, nothing is
    decoded, so the target is untouched, and there is no body to close. *)
Theorem transport_error_is_returned `{Runtime}
    (ctx : Context) (reqBody : IAPRequest) (result : Iface) (s : State)
    (e : error) (w : World) :
  url_Parse_error (Client_ProductionURL (st_client s)) = None ->
  http_RoundTrip (Client_httpCli (st_client s))
    (production_request s ctx reqBody) (st_world s) = (inl e, w) ->
  let out := Verify ctx reqBody result s in
  returned (fst out) = Some e /\
  st_sent (snd out) = (st_sent s ++ [production_request s ctx reqBody])%list /\
  st_mem (snd out) = st_mem s /\
  st_closed (snd out) = st_closed s /\
  st_world (snd out) = w.
Proof.
  intros Ha Hrt out. subst out.
  rewrite (Verify_transport_error ctx reqBody result s e w Ha Hrt).
  repeat split.
Qed.

(** X2. When the production body cannot be read, [Verify] returns the
    reader's error: the target is untouched, no fallback is tried, and the
    body is closed all the same. *)
Theorem read_error_is_returned `{Runtime}
    (ctx : Context) (reqBody : IAPRequest) (result : Iface) (s : State)
    (resp : http_Response) (w : World) (e : error) :
  url_Parse_error (Client_ProductionURL (st_client s)) = None ->
  http_RoundTrip (Client_httpCli (st_client s))
    (production_request s ctx reqBody) (st_world s) = (inr resp, w) ->
  ioutil_ReadAll (resp_Body resp) = inl e ->
  let out := Verify ctx reqBody result s in
  returned (fst out) = Some e /\
  st_mem (snd out) = st_mem s /\
  st_sent (snd out) = (st_sent s ++ [production_request s ctx reqBody])%list /\
  st_closed (snd out) = (st_closed s ++ [resp_Body resp])%list /\
  st_world (snd out) = w.
Proof.
  intros Ha Hrt Hb out. subst out.
  rewrite (Verify_reply ctx reqBody result s resp w Ha Hrt).
  rewrite (parseResponse_read_error ctx reqBody resp result
             (after_send s (production_request s ctx reqBody) w) e Hb).
  repeat split.
Qed.

(** X3. When the sandbox round trip of the fallback fails, [Verify]
    returns the transport's error and does not try again: two requests
    were made, the target holds what the production body decoded to, and
    the production body is closed. *)
Theorem fallback_transport_error_is_returned `{Runtime}
    (ctx : Context) (reqBody : IAPRequest) (result : Iface) (s : State)
    (resp : http_Response) (w : World) (buf : string)
    (result' : Iface) (m : Mem) (r : StatusResponse) (e : error) (w2 : World) :
  ProductionReply s ctx reqBody result resp w buf result' m r ->
  Client_IsProduct (st_client s) = false ->
  Status r = 21007 ->
  url_Parse_error (Client_SandboxURL (st_client s)) = None ->
  http_RoundTrip (Client_httpCli (st_client s))
    (sandbox_request s ctx reqBody) w = (inl e, w2) ->
  let out := Verify ctx reqBody result s in
  returned (fst out) = Some e /\
  st_mem (snd out) = m /\
  st_sent (snd out)
  = (st_sent s ++ [production_request s ctx reqBody;
                   sandbox_request s ctx reqBody])%list /\
  st_closed (snd out) = (st_closed s ++ [resp_Body resp])%list /\
  st_world (snd out) = w2.
Proof.
  intros Hreply Hp Hst Ha2 Hrt2 out. subst out.
  assert (Hc : fallback_condition s r = true)
    by (apply fallback_condition_true; auto).
  rewrite (Verify_fallback_transport_error
             ctx reqBody result s resp w buf result' m r Hreply e w2 Hc Ha2 Hrt2).
  simpl. rewrite <- app_assoc. repeat split.
Qed.

(** X4. Every response body received is closed once before [Verify]
    returns, on the error paths too, and nothing else is closed: nothing
    when no response arrived; when production answered, its body, preceded
    by the sandbox body if the sandbox answered the fallback, and alone if
    it did not. *)
Theorem bodies_are_closed_once `{Runtime}
    (ctx : Context) (reqBody : IAPRequest) (result : Iface) (s : State) :
  let out := Verify ctx reqBody result s in
  (forall e,
     url_Parse_error (Client_ProductionURL (st_client s)) = Some e ->
     st_closed (snd out) = st_closed s) /\
  (forall e w,
     url_Parse_error (Client_ProductionURL (st_client s)) = None ->
     http_RoundTrip (Client_httpCli (st_client s))
       (production_request s ctx reqBody) (st_world s) = (inl e, w) ->
     st_closed (snd out) = st_closed s) /\
  (forall resp w,
     url_Parse_error (Client_ProductionURL (st_client s)) = None ->
     http_RoundTrip (Client_httpCli (st_client s))
       (production_request s ctx reqBody) (st_world s) = (inr resp, w) ->
     (forall buf result' m r resp2 w2,
        ProductionReply s ctx reqBody result resp w buf result' m r ->
        fallback_condition s r = true ->
        url_Parse_error (Client_SandboxURL (st_client s)) = None ->
        http_RoundTrip (Client_httpCli (st_client s))
          (sandbox_request s ctx reqBody) w = (inr resp2, w2) ->
        st_closed (snd out)
        = (st_closed s ++ [resp_Body resp2; resp_Body resp])%list) /\
     ((forall buf result' m r resp2 w2,
         ProductionReply s ctx reqBody result resp w buf result' m r ->
         fallback_condition s r = true ->
         url_Parse_error (Client_SandboxURL (st_client s)) = None ->
         http_RoundTrip (Client_httpCli (st_client s))
           (sandbox_request s ctx reqBody) w <> (inr resp2, w2)) ->
      st_closed (snd out) = (st_closed s ++ [resp_Body resp])%list)).
Proof.
  intros out. subst out. split; [| split].
  - intros e Ha. rewrite (Verify_address_error ctx reqBody result s e Ha).
    reflexivity.
  - intros e w Ha Hrt.
    rewrite (Verify_transport_error ctx reqBody result s e w Ha Hrt).
    reflexivity.
  - intros resp0 w0 Ha0 Hrt0. split.
    + intros buf result' m r resp2 w2 Hreply Hc Ha2 Hrt2.
      rewrite (Verify_fallback_reply
                 ctx reqBody result s resp0 w0 buf result' m r Hreply
                 resp2 w2 Hc Ha2 Hrt2).
      simpl. rewrite <- app_assoc. reflexivity.
    + intros Hno.
      run_cases ctx reqBody result s;
        try match goal with
            | Hr : ProductionReply _ _ _ _ _ _ _ _ _ _ |- _ =>
                let Hr' := fresh "Hr" in
                pose proof Hr as Hr'; destruct Hr' as [? ? ? ? ?]
            end;
        same_call; simpl;
        first
          [ reflexivity
          | exfalso;
            match goal with
            | Hr : ProductionReply _ _ _ _ _ _ _ _ _ _,
              Hrt2 : http_RoundTrip _ (sandbox_request _ _ _) _ = (inr _, _)
              |- _ =>
                exact (Hno _ _ _ _ _ _ Hr ltac:(assumption) ltac:(assumption) Hrt2)
            end ].
Qed.

(** X5. Whatever [Verify] hands to the transport (at most two requests)
    is a POST under the caller's context with the single header
    [Content-Type: application/json; charset=utf-8], whose body is the
    encoded [reqBody] and whose address is one of the client's two. *)
Theorem requests_are_posts `{Runtime}
    (ctx : Context) (reqBody : IAPRequest) (result : Iface) (s : State) :
  let out := Verify ctx reqBody result s in
  exists new : list (http_Request Context),
    st_sent (snd out) = (st_sent s ++ new)%list /\
    (List.length new <= 2)%nat /\
    Forall
      (fun req =>
         req_Method req = "POST" /\
         req_Header req = [("Content-Type", "application/json; charset=utf-8")] /\
         req_ctx req = Some ctx /\
         req_Body req = fst (json_Encoder_Encode bytes_Buffer_new reqBody) /\
         (req_URL req = Client_ProductionURL (st_client s) \/
          req_URL req = Client_SandboxURL (st_client s)))
      new.
Proof.
  intros out. subst out.
  destruct (Run_sent ctx reqBody result s _ _ (Verify_run ctx reqBody result s))
    as (n & Hn & Hsent).
  exists (firstn n [production_request s ctx reqBody; sandbox_request s ctx reqBody]).
  split; [exact Hsent |].
  destruct n as [| [| [| n]]]; simpl; try lia;
    (split; [lia |]);
    repeat first [ apply Forall_nil | apply Forall_cons ];
    repeat (split; [reflexivity |]);
    first [ left; reflexivity | right; reflexivity ].
Qed.

(** X6. [Verify] returns nil exactly when every library call on its path
    went well, and then the target holds what the decoders left there: the
    decoded production body, or, after the fallback, the sandbox body
    decoded over it. *)
Theorem Verify_succeeds_iff `{Runtime}
    (ctx : Context) (reqBody : IAPRequest) (result : Iface) (s : State)
    (m' : Mem) :
  let out := Verify ctx reqBody result s in
  (returned (fst out) = None /\ st_mem (snd out) = m') <->
  Succeeds s ctx reqBody result m'.
Proof.
  intros out. subst out. split.
  - run_cases ctx reqBody result s; intros [Hret Hmem]; simpl in *;
      try discriminate Hret; subst m'.
    + eapply succeeds_production; eassumption.
    + destruct (json_Decoder_Decode (resp_Body resp2) result' m)
        as [[e |] m2] eqn:Hd; simpl in *; [discriminate Hret |].
      eapply succeeds_sandbox; eassumption.
  - intros Hs.
    destruct Hs as
      [ resp w buf result' m r Hreply Hc
      | resp w buf result' m r resp2 w2 m2 Hreply Hc Ha2 Hrt2 Hd ].
    + rewrite (Verify_stands ctx reqBody result s resp w buf result' m r Hreply Hc).
      split; reflexivity.
    + rewrite (Verify_fallback_reply
                 ctx reqBody result s resp w buf result' m r Hreply resp2 w2 Hc Ha2 Hrt2).
      rewrite Hd. split; reflexivity.
Qed.

(** X7. [Verify] returns the error [e] exactly when a library call on its
    path reports [e]: it passes on the first failure as it is, and makes
    up no error of its own (a status other than zero is none). *)
Theorem Verify_fails_iff `{Runtime}
    (ctx : Context) (reqBody : IAPRequest) (result : Iface) (s : State)
    (e : error) :
  returned (fst (Verify ctx reqBody result s)) = Some e <->
  LibraryFails s ctx reqBody result e.
Proof.
  split.
  - run_cases ctx reqBody result s; intros Hret; simpl in Hret;
      try discriminate Hret.
    + injection Hret as <-. apply fails_production_address. assumption.
    + injection Hret as <-. eapply fails_production_transport; eassumption.
    + injection Hret as <-. eapply fails_read; eassumption.
    + injection Hret as <-.
      eapply fails_decoder, target_rejected; eassumption.
    + injection Hret as <-.
      eapply fails_decoder, envelope_rejected; eassumption.
    + injection Hret as <-. eapply fails_sandbox_address; eassumption.
    + injection Hret as <-. eapply fails_sandbox_transport; eassumption.
    + destruct (json_Decoder_Decode (resp_Body resp2) result' m)
        as [[e2 |] m2] eqn:Hd; simpl in Hret; [| discriminate Hret].
      injection Hret as <-.
      match goal with
      | Hc : fallback_condition _ _ = true |- _ =>
          apply fallback_condition_true in Hc; destruct Hc as [Hp Hst]
      end.
      eapply fails_decoder, sandbox_rejected; eassumption.
  - intros Hfail.
    destruct Hfail as
      [ Ha
      | w Ha Hrt
      | resp w Ha Hrt Hb
      | m Hdec
      | resp w buf result' m r Hreply Hc Ha2
      | resp w buf result' m r w2 Hreply Hc Ha2 Hrt2 ].
    + rewrite (Verify_address_error ctx reqBody result s e Ha). reflexivity.
    + rewrite (Verify_transport_error ctx reqBody result s e w Ha Hrt).
      reflexivity.
    + rewrite (Verify_reply ctx reqBody result s resp w Ha Hrt).
      rewrite (parseResponse_read_error ctx reqBody resp result
                 (after_send s (production_request s ctx reqBody) w) e Hb).
      reflexivity.
    + destruct Hdec as
        [ resp w buf e result' m Ha Hrt Hb Ht
        | resp w buf e result' m r Ha Hrt Hb Ht Hs
        | resp w buf result' m r resp2 w2 e m2 Hreply Hp Hst Ha2 Hrt2 Hd ].
      * rewrite (Verify_reply ctx reqBody result s resp w Ha Hrt).
        rewrite (parseResponse_target_error ctx reqBody resp result
                   (after_send s (production_request s ctx reqBody) w)
                   buf e result' m Hb Ht).
        reflexivity.
      * rewrite (Verify_reply ctx reqBody result s resp w Ha Hrt).
        rewrite (parseResponse_status_error ctx reqBody resp result
                   (after_send s (production_request s ctx reqBody) w)
                   buf e result' m r Hb Ht Hs).
        reflexivity.
      * assert (Hc : fallback_condition s r = true)
          by (apply fallback_condition_true; auto).
        rewrite (Verify_fallback_reply
                   ctx reqBody result s resp w buf result' m r Hreply
                   resp2 w2 Hc Ha2 Hrt2).
        rewrite Hd. reflexivity.
    + rewrite (Verify_fallback_address_error
                 ctx reqBody result s resp w buf result' m r Hreply e Hc Ha2).
      reflexivity.
    + rewrite (Verify_fallback_transport_error
                 ctx reqBody result s resp w buf result' m r Hreply e w2 Hc Ha2 Hrt2).
      reflexivity.
Qed.

(** [parseResponse] reads nothing of a response but its body. *)
Lemma parseResponse_same_body `{Runtime}
    (resp resp' : http_Response)
    (result : Iface) (ctx : Context) (reqBody : IAPRequest) (s : State) :
  resp_Body resp = resp_Body resp' ->
  parseResponse resp result ctx reqBody s
  = parseResponse resp' result ctx reqBody s.
Proof.
  intros Hbody. unfold parseResponse. rewrite Hbody. reflexivity.
Qed.

(** X11. [Verify] never looks at the HTTP status code of the production
    response: two calls whose production responses have the same body and
    leave the network in the same state return the same value and leave
    the same state, whatever the two status codes are. *)
Theorem Verify_ignores_status_code `{Runtime}
    (ctx : Context) (reqBody : IAPRequest) (result : Iface) (s1 s2 : State)
    (resp1 resp2 : http_Response) (w : World) :
  st_client s1 = st_client s2 ->
  st_mem s1 = st_mem s2 ->
  st_sent s1 = st_sent s2 ->
  st_closed s1 = st_closed s2 ->
  url_Parse_error (Client_ProductionURL (st_client s1)) = None ->
  http_RoundTrip (Client_httpCli (st_client s1))
    (production_request s1 ctx reqBody) (st_world s1) = (inr resp1, w) ->
  http_RoundTrip (Client_httpCli (st_client s2))
    (production_request s2 ctx reqBody) (st_world s2) = (inr resp2, w) ->
  resp_Body resp1 = resp_Body resp2 ->
  Verify ctx reqBody result s1 = Verify ctx reqBody result s2.
Proof.
  intros Hc Hm Hs Hcl Ha Hrt1 Hrt2 Hbody.
  assert (Ha' : url_Parse_error (Client_ProductionURL (st_client s2)) = None)
    by (rewrite <- Hc; exact Ha).
  rewrite (Verify_reply ctx reqBody result s1 resp1 w Ha Hrt1).
  rewrite (Verify_reply ctx reqBody result s2 resp2 w Ha' Hrt2).
  assert (Hafter : after_send s1 (production_request s1 ctx reqBody) w
                   = after_send s2 (production_request s2 ctx reqBody) w).
  { unfold after_send, production_request. rewrite Hc, Hm, Hs, Hcl. reflexivity. }
  rewrite Hafter.
  rewrite (parseResponse_same_body resp1 resp2 result ctx reqBody _ Hbody).
  unfold Body_Close. rewrite Hbody. reflexivity.
Qed.

(** X12. A production-only client never goes to the sandbox: whatever the
    production endpoint answers, and whether the call succeeds or fails,
    at most the production request is sent. *)
Theorem production_client_sends_once `{Runtime}
    (ctx : Context) (reqBody : IAPRequest) (result : Iface) (s : State) :
  Client_IsProduct (st_client s) = true ->
  let out := Verify ctx reqBody result s in
  exists n : nat,
    (n <= 1)%nat /\
    st_sent (snd out)
    = (st_sent s ++ firstn n [production_request s ctx reqBody])%list.
Proof.
  intros Hp out. subst out.
  run_cases ctx reqBody result s;
    try match goal with
        | Hc : fallback_condition _ _ = true |- _ =>
            apply fallback_condition_true in Hc; destruct Hc; congruence
        end;
    simpl;
    first
      [ exists 0%nat; split; [lia | simpl; rewrite app_nil_r; reflexivity ]
      | exists 1%nat; split; [lia | reflexivity ] ].
Qed.

(** X13. A second request is sent only in the fallback: when a call has
    sent two requests, its production reply decoded, to status 21007, the
    client is not production-only, and the two are the production request
    and the sandbox request, in that order. *)
Theorem second_request_means_fallback `{Runtime}
    (ctx : Context) (reqBody : IAPRequest) (result : Iface) (s : State) :
  let out := Verify ctx reqBody result s in
  List.length (st_sent (snd out)) = (List.length (st_sent s) + 2)%nat ->
  exists resp w buf result' m r,
    ProductionReply s ctx reqBody result resp w buf result' m r /\
    Client_IsProduct (st_client s) = false /\
    Status r = 21007 /\
    url_Parse_error (Client_SandboxURL (st_client s)) = None /\
    st_sent (snd out)
    = (st_sent s ++ [production_request s ctx reqBody;
                     sandbox_request s ctx reqBody])%list.
Proof.
  intros out. subst out.
  run_cases ctx reqBody result s; simpl;
    rewrite ?length_app; simpl; intros Hlen; try lia;
    match goal with
    | Hc : fallback_condition _ _ = true |- _ =>
        apply fallback_condition_true in Hc; destruct Hc as [Hp Hst]
    end;
    do 6 eexists; (split; [eassumption |]);
    repeat (split; [assumption |]);
    rewrite <- app_assoc; reflexivity.
Qed.

(** X14. The target is decoded before the status is looked at: a
    production body that the target rejects ends the call with the
    decoder's error after the one request, and no fallback is tried, also
    when the body carries status 21007 for a client that is not
    production-only. *)
Theorem target_error_stops_the_call `{Runtime}
    (ctx : Context) (reqBody : IAPRequest) (result : Iface) (s : State)
    (resp : http_Response) (w : World) (buf : string)
    (e : error) (result' : Iface) (m : Mem) :
  url_Parse_error (Client_ProductionURL (st_client s)) = None ->
  http_RoundTrip (Client_httpCli (st_client s))
    (production_request s ctx reqBody) (st_world s) = (inr resp, w) ->
  ioutil_ReadAll (resp_Body resp) = inr buf ->
  json_Unmarshal buf result (st_mem s) = (Some e, result', m) ->
  let out := Verify ctx reqBody result s in
  returned (fst out) = Some e /\
  st_sent (snd out) = (st_sent s ++ [production_request s ctx reqBody])%list /\
  st_world (snd out) = w /\
  st_closed (snd out) = (st_closed s ++ [resp_Body resp])%list /\
  st_mem (snd out) = m.
Proof.
  intros Ha Hrt Hb Ht out. subst out.
  rewrite (Verify_reply ctx reqBody result s resp w Ha Hrt).
  rewrite (parseResponse_target_error ctx reqBody resp result
             (after_send s (production_request s ctx reqBody) w)
             buf e result' m Hb Ht).
  repeat split.
Qed.

(** ** Further properties of [HandleError] *)

(** Decides every test [HandleError] makes on [x]. *)
Ltac classify x :=
  repeat match goal with
         | |- context [x =? ?k] => destruct (Z.eqb_spec x k)
         end;
  try (rewrite (Z.geb_leb x 21100);
       destruct (Z.leb_spec 21100 x); simpl;
       try destruct (Z.leb_spec x 21199); simpl).

Lemma HandleError_range (status : Z) :
  21100 <= status <= 21199 ->
  HandleError status = Some (errors_New "Internal data access error.").
Proof.
  intros Hrange. unfold HandleError. classify status; try lia; reflexivity.
Qed.

Lemma HandleError_undocumented (status : Z) :
  undocumented status ->
  HandleError status = Some (errors_New "An unknown error occurred").
Proof.
  intros (Hnz & Hdoc & Hrange). unfold HandleError.
  classify status; try reflexivity; try lia;
    exfalso; apply Hdoc; subst; simpl; tauto.
Qed.

(** X8. No two cases of [HandleError] share a message: two statuses get
    the same answer exactly when they are equal, or both lie in
    21100..21199, or both are statuses it has no case for. So the answer
    tells the documented codes apart. *)
Theorem HandleError_same_error (a b : Z) :
  HandleError a = HandleError b <->
  a = b \/
  (21100 <= a <= 21199 /\ 21100 <= b <= 21199) \/
  (undocumented a /\ undocumented b).
Proof.
  split.
  - unfold HandleError. classify a; classify b; intros Hsame;
      try discriminate Hsame;
      first
        [ left; congruence
        | right; left; lia
        | right; right; unfold undocumented, documented_codes; simpl;
          repeat split; try assumption; lia ].
  - intros [-> | [[Ha Hb] | [Ha Hb]]].
    + reflexivity.
    + rewrite (HandleError_range a Ha), (HandleError_range b Hb). reflexivity.
    + rewrite (HandleError_undocumented a Ha), (HandleError_undocumented b Hb).
      reflexivity.
Qed.

(** ** Properties of [numericString] *)

(** X9. [UnmarshalJSON] of a [numericString] either fails and keeps the
    receiver's value, returning the decoder's error as it is, or succeeds
    and replaces the value; which of the two, and the new value, depend on
    the bytes alone, not on what the receiver held. *)
Theorem numericString_UnmarshalJSON_outcome `{NumberDecoder}
    (n : numericString) (b : string) :
  (forall e,
     fst (numericString_UnmarshalJSON n b) = Some e ->
     snd (numericString_UnmarshalJSON n b) = n /\
     fst (json_Unmarshal_Number b EmptyString) = Some e) /\
  (fst (numericString_UnmarshalJSON n b) = None ->
   snd (numericString_UnmarshalJSON n b)
   = Number_String (snd (json_Unmarshal_Number b EmptyString)) /\
   forall n', numericString_UnmarshalJSON n' b = numericString_UnmarshalJSON n b) /\
  (forall n',
     fst (numericString_UnmarshalJSON n' b) = fst (numericString_UnmarshalJSON n b)).
Proof.
  unfold numericString_UnmarshalJSON.
  destruct (json_Unmarshal_Number b EmptyString) as [[e0 |] number]; simpl.
  - split; [| split].
    + intros e [= <-]. split; reflexivity.
    + discriminate.
    + reflexivity.
  - split; [| split].
    + discriminate.
    + intros _. split; reflexivity.
    + reflexivity.
Qed.

(** X10. Bytes that the decoder accepts without storing a number, as it
    does with [null], empty the receiver: [UnmarshalJSON] does not keep the
    old value then. *)
Theorem numericString_UnmarshalJSON_null `{NumberDecoder}
    (n : numericString) (b : string) :
  json_Unmarshal_Number b EmptyString = (None, EmptyString) ->
  numericString_UnmarshalJSON n b = (None, EmptyString).
Proof.
  intros Hnull. unfold numericString_UnmarshalJSON. rewrite Hnull. reflexivity.
Qed.

(** ** The further properties at work *)

Import Runs.

Lemma transport_error_is_returned_witness :
  let s := start (New false) offline in
  let out := Verify 7%nat receipt ToSummary s in
  returned (fst out) = Some (errors_New "dial tcp: no such host") /\
  st_sent (snd out) = [production_request s 7%nat receipt] /\
  st_mem (snd out) = empty_summary /\
  st_closed (snd out) = [] /\
  st_world (snd out) = offline.
Proof.
  apply (transport_error_is_returned (H := runtime) 7%nat receipt ToSummary
           (start (New false) offline)
           (errors_New "dial tcp: no such host") offline).
  - reflexivity.
  - reflexivity.
Defined.

Lemma read_error_is_returned_witness :
  let s := start (New false) cut_off in
  let body := {| stream_data := js "{'status':0,'envir";
                 stream_err := Some (errors_New "unexpected EOF") |} in
  let out := Verify 7%nat receipt ToSummary s in
  returned (fst out) = Some (errors_New "unexpected EOF") /\
  st_mem (snd out) = empty_summary /\
  st_sent (snd out) = [production_request s 7%nat receipt] /\
  st_closed (snd out) = [body] /\
  st_world (snd out) = cut_off.
Proof.
  apply (read_error_is_returned (H := runtime) 7%nat receipt ToSummary
           (start (New false) cut_off)
           {| resp_StatusCode := 200;
              resp_Body := {| stream_data := js "{'status':0,'envir";
                              stream_err := Some (errors_New "unexpected EOF") |} |}
           cut_off (errors_New "unexpected EOF")).
  - reflexivity.
  - reflexivity.
  - reflexivity.
Defined.

Lemma fallback_transport_error_is_returned_witness :
  let s := start (New false) production_only in
  let out := Verify 7%nat receipt ToSummary s in
  returned (fst out) = Some (errors_New "dial tcp: no such host") /\
  st_mem (snd out) = summary 21007 "Production" /\
  st_sent (snd out)
  = [production_request s 7%nat receipt; sandbox_request s 7%nat receipt] /\
  st_closed (snd out)
  = [resp_Body (response (js "{'status':21007,'environment':'Production'}"))] /\
  st_world (snd out) = production_only.
Proof.
  apply (fallback_transport_error_is_returned (H := runtime)
           7%nat receipt ToSummary (start (New false) production_only)
           (response (js "{'status':21007,'environment':'Production'}"))
           production_only
           (js "{'status':21007,'environment':'Production'}")
           ToSummary (summary 21007 "Production") {| Status := 21007 |}
           (errors_New "dial tcp: no such host") production_only).
  - split; reflexivity.
  - reflexivity.
  - reflexivity.
  - reflexivity.
  - reflexivity.
Defined.

(** [null] for an [app_item_id] that held a number. *)
Lemma numericString_UnmarshalJSON_null_witness :
  numericString_UnmarshalJSON "557130558" "null" = (None, EmptyString).
Proof.
  apply (numericString_UnmarshalJSON_null (H := numbers) "557130558" "null").
  reflexivity.
Defined.

(** Status 200 or 503 on the production response: the same call. *)
Lemma Verify_ignores_status_code_witness :
  @Verify scripted 7%nat receipt ToSummary (curtain (script_with_code 200))
  = @Verify scripted 7%nat receipt ToSummary (curtain (script_with_code 503)).
Proof.
  apply (Verify_ignores_status_code (H := scripted) 7%nat receipt ToSummary
           (curtain (script_with_code 200)) (curtain (script_with_code 503))
           {| resp_StatusCode := 200;
              resp_Body := {| stream_data := js "{'status':21007}";
                              stream_err := None |} |}
           {| resp_StatusCode := 503;
              resp_Body := {| stream_data := js "{'status':21007}";
                              stream_err := None |} |}
           [reply (js "{'status':0,'environment':'Sandbox'}")]);
    reflexivity.
Defined.

(** A number, a quoted number and something else for a field that held
    [12]. *)
Example numericString_runs :
  numericString_UnmarshalJSON "12" "557130558" = (None, "557130558") /\
  numericString_UnmarshalJSON "12" (js "'557130558'") = (None, "557130558") /\
  fst (numericString_UnmarshalJSON "12" "true") <> None /\
  snd (numericString_UnmarshalJSON "12" "true") = "12".
Proof. repeat split. discriminate. Qed.

(** A client with addresses of its own is served at those addresses. *)
Example relocated_client :
  let out := Verify 7%nat receipt ToSummary (start relocated proxy) in
  map req_URL (st_sent (snd out))
  = ["https://proxy.example/buy"; "https://proxy.example/sandbox"] /\
  st_mem (snd out) = summary 0 "Sandbox".
Proof. repeat split. Qed.

Lemma production_client_sends_once_witness :
  let s := start (New true) (stores "21007") in
  let out := Verify 7%nat receipt ToSummary s in
  exists n : nat,
    (n <= 1)%nat /\
    st_sent (snd out) = firstn n [production_request s 7%nat receipt].
Proof.
  apply (production_client_sends_once (H := runtime) 7%nat receipt ToSummary
           (start (New true) (stores "21007"))).
  reflexivity.
Defined.

Lemma second_request_means_fallback_witness :
  let s := start (New false) (stores "21007") in
  let out := Verify 7%nat receipt ToSummary s in
  exists resp w buf result' m r,
    ProductionReply s 7%nat receipt ToSummary resp w buf result' m r /\
    Client_IsProduct (st_client s) = false /\
    Status r = 21007 /\
    url_Parse_error (Client_SandboxURL (st_client s)) = None /\
    st_sent (snd out)
    = [production_request s 7%nat receipt; sandbox_request s 7%nat receipt].
Proof.
  apply (second_request_means_fallback (H := runtime) 7%nat receipt ToSummary
           (start (New false) (stores "21007"))).
  reflexivity.
Defined.

(** A sandbox receipt whose reply does not fit the target is not sent on
    to the sandbox. *)
Lemma target_error_stops_the_call_witness :
  let s := start (New false) mistyped in
  let out := Verify 7%nat receipt ToSummary s in
  returned (fst out) = Some type_error /\
  st_sent (snd out) = [production_request s 7%nat receipt] /\
  st_world (snd out) = mistyped /\
  st_closed (snd out)
  = [resp_Body (response (js "{'status':21007,'environment':5}"))] /\
  st_mem (snd out) = summary 21007 EmptyString.
Proof.
  apply (target_error_stops_the_call (H := runtime) 7%nat receipt ToSummary
           (start (New false) mistyped)
           (response (js "{'status':21007,'environment':5}")) mistyped
           (js "{'status':21007,'environment':5}")
           type_error ToSummary (summary 21007 EmptyString)).
  - reflexivity.
  - reflexivity.
  - reflexivity.
  - reflexivity.
Defined.

(** ** The client as the target of its own call *)

(** For a [result] that is not the client, the code of [Shared] is the
    code above. *)
Lemma Shared_parseResponse_other `{Shared.ClientDecoder}
    (resp : http_Response) (result : Iface) (ctx : Context)
    (reqBody : IAPRequest) (s : State) :
  Shared.parseResponse resp (Shared.Other result) ctx reqBody s
  = parseResponse resp result ctx reqBody s.
Proof.
  unfold Shared.parseResponse, Shared.Unmarshal_any, Shared.Decode_any.
  go_unfold. go_cases; reflexivity.
Qed.

Lemma Shared_Verify_other `{Shared.ClientDecoder}
    (ctx : Context) (reqBody : IAPRequest) (result : Iface) (s : State) :
  Shared.Verify ctx reqBody (Shared.Other result) s
  = Verify ctx reqBody result s.
Proof.
  unfold Shared.Verify, Verify, bind, defer.
  destruct (load_client s) as [[e | c] s0]; [reflexivity |].
  destruct (json_Encoder_Encode bytes_Buffer_new reqBody) as [b o].
  destruct (try (http_NewRequest "POST" (Client_ProductionURL c) b) s0)
    as [[e | req] s1]; [reflexivity |].
  destruct (http_Client_Do (Client_httpCli c)
              (req_WithContext (req_Header_Set req "Content-Type" ContentType) ctx)
              s1) as [[e | resp] s2]; [reflexivity |].
  rewrite Shared_parseResponse_other. reflexivity.
Qed.

(** C9, as amended. When [result] does not point to the client (its
    target is memory apart from the client struct), [Verify] leaves the
    client as it found it, whatever the outcome: the endpoint addresses,
    the production flag and the HTTP client are the same after the
    call. *)
Theorem Verify_preserves_client_of_others `{Shared.ClientDecoder}
    (ctx : Context) (reqBody : IAPRequest) (result : Shared.Result) (s : State) :
  result <> Shared.TheClient ->
  let s' := snd (Shared.Verify ctx reqBody result s) in
  st_client s' = st_client s /\
  Client_ProductionURL (st_client s') = Client_ProductionURL (st_client s) /\
  Client_SandboxURL (st_client s') = Client_SandboxURL (st_client s) /\
  Client_IsProduct (st_client s') = Client_IsProduct (st_client s) /\
  Client_httpCli (st_client s') = Client_httpCli (st_client s).
Proof.
  intros Hother. destruct result as [| result]; [contradiction |].
  rewrite Shared_Verify_other.
  exact (Verify_preserves_client ctx reqBody result s).
Qed.

Import SharedEnv.

(** A call with a target of its own, through the fallback. *)
Lemma Verify_preserves_client_of_others_witness :
  let s := start (New false) (stores "21007") in
  let s' := snd (Shared.Verify 7%nat receipt (Shared.Other ToSummary) s) in
  st_client s' = New false /\
  Client_ProductionURL (st_client s') = ProductionURL /\
  Client_SandboxURL (st_client s') = SandboxURL /\
  Client_IsProduct (st_client s') = false /\
  Client_httpCli (st_client s') = Client_httpCli (New false).
Proof.
  apply (@Verify_preserves_client_of_others runtime client_decoder
           7%nat receipt (@Shared.Other runtime ToSummary)
           (start (New false) (stores "21007"))).
  discriminate.
Defined.

(** C9 as it is worded fails for the call [c.Verify(ctx, req, c)]: the
    production body is decoded into the client, whose production flag and
    sandbox address are then what the body says. *)
Lemma Verify_preserves_client_counterexample :
  let s := start (New false) SharedEnv.echoing in
  let out := Shared.Verify 7%nat receipt Shared.TheClient s in
  fst out = inr tt /\
  Client_IsProduct (st_client s) = false /\
  Client_IsProduct (st_client (snd out)) = true /\
  Client_SandboxURL (st_client s) = SandboxURL /\
  Client_SandboxURL (st_client (snd out)) = "http://localhost/" /\
  Client_httpCli (st_client (snd out)) = Client_httpCli (st_client s) /\
  st_client (snd out) <> st_client s.
Proof.
  cbv zeta. repeat (split; [reflexivity |]). discriminate.
Qed.

(** ** More counterexamples *)

(** C6 as it is worded fails for the sandbox body: a body that is one
    JSON value followed by other bytes is not valid JSON, and
    [json.Unmarshal] refuses it, but the stream decoder of the fallback
    reads the value and stops, so the call returns nil. *)
Lemma decode_error_is_returned_counterexample :
  let w := [ (ProductionURL, reply (js "{'status':21007}"));
             (SandboxURL, reply (js "{'status':0} and more")) ] in
  let s := start (New false) w in
  let out := Verify 7%nat receipt ToSummary s in
  answer w SandboxURL = reply (js "{'status':0} and more") /\
  parse_all (js "{'status':0} and more") = None /\
  unmarshal (js "{'status':0} and more") ToSummary empty_summary
  = (Some syntax_error, ToSummary, empty_summary) /\
  st_sent (snd out)
  = [production_request s 7%nat receipt; sandbox_request s 7%nat receipt] /\
  fst out = inr tt /\
  st_mem (snd out) = summary 0 EmptyString.
Proof.
  cbv zeta. repeat split.
Qed.

(** C10 as it is worded fails for a target that the decoder replaces.
    The caller passes a pointer to an empty [interface{}]: the production
    body leaves a map with [environment] in it, the sandbox body, which
    has no [environment], leaves a new map, and the production value is
    gone. *)
Lemma fallback_keeps_production_fields_counterexample :
  let s := AnyEnv.start terse_stores in
  let out := @Verify AnyEnv.runtime 7%nat receipt AnyEnv.ToAny s in
  let after_production :=
    snd (AnyEnv.unmarshal_any (js "{'status':21007,'environment':'Production'}")
           AnyEnv.ToAny None) in
  fst out = inr tt /\
  List.length (st_sent (snd out)) = 2%nat /\
  AnyEnv.member after_production "environment" = Some (JStr "Production") /\
  mentions (resp_Body (response (js "{'status':0}"))) FEnvironment = false /\
  st_mem (snd out) = Some [("status", JNum 0)] /\
  AnyEnv.member (st_mem (snd out)) "environment" = None.
Proof.
  cbv zeta. repeat split.
Qed.
